(** * Remote log download and Elasticsearch ingestion monitor

    A shallow embedding of [monitor_logs_ingestion.py]: the remote setup
    steps run over SSH, the polling loop that watches the document count of
    an index pattern, and the driver [main] that composes them.

    Conventions of the embedding.
    - Python integers are [Z]; document counts reported by the search service
      are naturals ([N]) and enter the arithmetic of the monitor as [Z].
    - Clock readings ([time.time()]) are [Z], in seconds.  The source reads a
      float; the model keeps its subtraction and comparisons exact.
    - Everything the program takes from outside (replies of the remote host,
      replies of the search service, clock readings, Ctrl-C) is an explicit
      input: a [World] for [main], a list of [event]s for the polling loop.
    - Exceptions are values of [exn]; a computation yields the actions it
      performed so far together with its [outcome]. *)

From Stdlib Require Import ZArith NArith List String Ascii Bool Lia.
From Stdlib Require Import Permutation Sorted DecimalString.
Import ListNotations.

Local Open Scope Z_scope.

(** ** Python exceptions and effectful computations *)

Module Py.

(** The exceptions the program can meet.  [SystemExit] and
    [KeyboardInterrupt] derive from [BaseException] only; the others derive
    from [Exception]. *)
Inductive exn : Type :=
| SystemExit (code : Z)
| KeyboardInterrupt
| UnboundLocalError (name : string)
| ValueError
| TransportError.

Definition is_Exception (e : exn) : bool :=
  match e with
  | SystemExit _ | KeyboardInterrupt => false
  | UnboundLocalError _ | ValueError | TransportError => true
  end.

(** What the program does to the outside, in order. *)
Inductive message : Type :=
| MsgAlreadyDownloaded
| MsgNotDownloaded
| MsgDownloadFailed (exit_status : Z)
| MsgSymlinksFailed (exit_status : Z)
| MsgEsUnreachable
| MsgSuccess (new_docs : Z)
| MsgNoNewDocuments
| MsgCheckScriptError
| MsgSshClosed.

Inductive action : Type :=
| Exec (command : string)
| Sleep (secs : Z)
| ConnectEs
| Watch (pattern : string)
| Print (m : message)
| CloseSsh.

(** [Running]: the inputs are used up and the program is still going. *)
Inductive outcome (A : Type) : Type :=
| Normal (a : A)
| Raise (e : exn)
| Running.
Arguments Normal {A} a.
Arguments Raise {A} e.
Arguments Running {A}.

Definition run (A : Type) : Type := (list action * outcome A)%type.

Definition ret {A} (a : A) : run A := ([], Normal a).
Definition raise {A} (e : exn) : run A := ([], Raise e).
Definition emit (a : action) : run unit := ([a], Normal tt).

Definition bind {A B} (m : run A) (k : A -> run B) : run B :=
  match snd m with
  | Normal a => (fst m ++ fst (k a), snd (k a))
  | Raise e => (fst m, Raise e)
  | Running => (fst m, Running)
  end.

(** [try: body finally: fin].  The [finally] block runs however the body
    ends; an exception of the block itself replaces the pending one. *)
Definition try_finally {A} (body : run A) (fin : run unit) : run A :=
  match snd body with
  | Running => (fst body, Running)
  | r =>
      (fst body ++ fst fin,
       match snd fin with
       | Normal _ => r
       | Raise e => Raise e
       | Running => Running
       end)
  end.

(** [try: body except Exception as e: handler]. *)
Definition try_except_Exception {A} (body : run A) (handler : run A) : run A :=
  match snd body with
  | Raise e =>
      if is_Exception e then (fst body ++ fst handler, snd handler)
      else body
  | _ => body
  end.

Definition sys_exit {A} (code : Z) : run A := raise (SystemExit code).

(** A statement of a function body either returns a value or falls through
    to the statements after it. *)
Definition or_continue {A} (stmt : option A) (rest : A) : A :=
  match stmt with
  | Some v => v
  | None => rest
  end.

End Py.

Declare Scope py_scope.
Delimit Scope py_scope with py.
Notation "x <- m ;; k" := (Py.bind m (fun x => k))
  (at level 61, m at next level, right associativity) : py_scope.
Notation "m ;; k" := (Py.bind m (fun _ => k))
  (at level 61, right associativity) : py_scope.

(** ** Strings *)

Module Str.

Definition nl : string := String (ascii_of_nat 10) EmptyString.

Definition dq : string := String (ascii_of_nat 34) EmptyString.

Definition quoted (s : string) : string := (dq ++ s ++ dq)%string.

(** Python's [needle in haystack] on [str]. *)
Fixpoint contains (needle haystack : string) : bool :=
  if String.prefix needle haystack then true
  else match haystack with
       | EmptyString => false
       | String _ rest => contains needle rest
       end.

Fixpoint mem (s : string) (l : list string) : bool :=
  match l with
  | [] => false
  | x :: l' => if String.eqb s x then true else mem s l'
  end.

(** Truth value of a [str]: the empty string is false. *)
Definition truthy (s : string) : bool :=
  match s with
  | EmptyString => false
  | String _ _ => true
  end.

End Str.

(** ** Command line arguments ([parse_args]) *)

Record Args : Type := {
  log_type : string;
  log_dir : string;
  force_download : bool;
  cloud_id : string;
  api_key : string;
  index : option string;
  stable_time : Z;
  check_interval : Z;
  verbose : bool
}.

(** ** The ingestion monitor *)

Module Monitor.

(** Reply of [es.indices.stats(index=index_pattern)]: either some
    [Exception] raised inside the [try] of [get_doc_count], or the
    ['indices'] mapping, each index with its [total.docs.count]. *)
Inductive es_reply : Type :=
| EsError
| EsIndices (indices : list (string * N)).

Definition get_doc_count (r : es_reply) : Z :=
  match r with
  | EsError => 0
  | EsIndices [] => 0
  | EsIndices indices =>
      fold_left (fun total_docs idx => total_docs + Z.of_N (snd idx)) indices 0
  end.

Definition get_default_index_pattern (args : Args) (today : string) : string :=
  Py.or_continue
    (Some "filebeat-*"%string)
    (if String.eqb (log_type args) "all" then
       ("filebeat-7.*-" ++ today)%string
     else if Str.mem (log_type args) ["linux"; "windows"; "mac"; "ssh"; "apache"]%string then
       ("filebeat-7.*-" ++ log_type args ++ "-" ++ today)%string
     else
       ("filebeat-7.*-" ++ today)%string).

(** [args.index if args.index else get_default_index_pattern(args)] *)
Definition index_pattern (args : Args) (today : string) : string :=
  match index args with
  | Some p => if Str.truthy p then p else get_default_index_pattern args today
  | None => get_default_index_pattern args today
  end.

(** The local variables of [monitor_elasticsearch].  [current_count] is
    bound by the first assignment inside the loop, not before. *)
Record Window : Type := {
  initial_count : Z;
  stable_count : Z;
  stable_since : Z;
  last_count : Z;
  max_count : Z;
  current_count : option Z
}.

Definition start (initial : Z) (now : Z) : Window :=
  {| initial_count := initial;
     stable_count := initial;
     stable_since := now;
     last_count := initial;
     max_count := initial;
     current_count := None |}.

Inductive status : Type :=
| Waiting
| Ingesting (new_docs : Z)
| StableFor (time_since_stable : Z).

(** One pass over the body of the loop up to the status row: the sample
    [current_count] taken at clock reading [current_time]. *)
Definition observe (w : Window) (current_time current_count : Z)
  : status * Window :=
  let new_docs := current_count - last_count w in
  let max_count' :=
    if current_count >? max_count w then current_count else max_count w in
  let time_since_stable := current_time - stable_since w in
  if current_count =? initial_count w then
    (Waiting,
     {| initial_count := initial_count w;
        stable_count := stable_count w;
        stable_since := stable_since w;
        last_count := current_count;
        max_count := max_count';
        current_count := Some current_count |})
  else if new_docs >? 0 then
    (Ingesting new_docs,
     {| initial_count := initial_count w;
        stable_count := current_count;
        stable_since := current_time;
        last_count := current_count;
        max_count := max_count';
        current_count := Some current_count |})
  else
    (StableFor time_since_stable,
     {| initial_count := initial_count w;
        stable_count := stable_count w;
        stable_since := stable_since w;
        last_count := current_count;
        max_count := max_count';
        current_count := Some current_count |}).

(** The test that ends the loop, on the variables as [observe] leaves them. *)
Definition reached_stable (args : Args) (w : Window)
  (current_time current_count : Z) : bool :=
  (current_count >? initial_count w)
  && (current_count =? stable_count w)
  && (current_time - stable_since w >=? stable_time args).

(** What happens in one iteration of [while True].
    - [Sample now r]: the iteration runs undisturbed; [time.time()] reads
      [now] and the stats request is answered by [r].
    - [InterruptBeforeSample]: Ctrl-C arrives in this iteration before the
      assignment to [current_count] completes.
    - [InterruptAfterSample now r]: Ctrl-C arrives after that assignment, in
      the rest of the body, in [time.sleep] or in the summary. *)
Inductive event : Type :=
| Sample (now : Z) (r : es_reply)
| InterruptBeforeSample
| InterruptAfterSample (now : Z) (r : es_reply).

Inductive stop : Type :=
| Stable
| Interrupted.

(** How [monitor_elasticsearch] ends on a given list of events: it returns
    [current_count - initial_count] (after the stable test fired or from the
    [KeyboardInterrupt] handler), an exception leaves it, or the events are
    used up while it is still polling. *)
Inductive result : Type :=
| Returned (why : stop) (new_docs : Z)
| Raised (e : Py.exn)
| Polling (w : Window).

Fixpoint loop (args : Args) (w : Window) (events : list event) : result :=
  match events with
  | [] => Polling w
  | Sample now r :: rest =>
      let c := get_doc_count r in
      let w' := snd (observe w now c) in
      if reached_stable args w' now c then
        Returned Stable (c - initial_count w')
      else if check_interval args <? 0 then
        Raised Py.ValueError
      else
        loop args w' rest
  | InterruptBeforeSample :: _ =>
      match current_count w with
      | Some c => Returned Interrupted (c - initial_count w)
      | None => Raised (Py.UnboundLocalError "current_count")
      end
  | InterruptAfterSample now r :: _ =>
      Returned Interrupted (get_doc_count r - initial_count w)
  end.

Definition monitor_elasticsearch (args : Args) (first : es_reply)
  (started : Z) (events : list event) : result :=
  loop args (start (get_doc_count first) started) events.

(** The windows the loop goes through when nothing stops it. *)
Fixpoint track (w : Window) (events : list event) : Window :=
  match events with
  | Sample now r :: rest => track (snd (observe w now (get_doc_count r))) rest
  | _ => w
  end.


Definition is_sample (e : event) : bool :=
  match e with
  | Sample _ _ => true
  | _ => false
  end.


Definition samples (clock : nat -> Z) (reply : nat -> es_reply) (n : nat)
  : list event :=
  map (fun k => Sample (clock k) (reply k)) (seq 0 n).

End Monitor.

(** ** Remote commands and the setup steps *)

Module Remote.

Import Py.
Local Open Scope py_scope.

(** What [ssh_client.exec_command] and the reads that follow it give for one
    command: the command ran to its end, Ctrl-C arrived while waiting for it,
    or the transport raised. *)
Inductive reply : Type :=
| Ran (exit_status : Z) (output error : string)
| CtrlC
| Broken.

(** The remote host, as seen through one connection. *)
Definition host : Type := string -> reply.

Definition execute_remote_command (ssh_client : host) (command : string)
  : run (Z * string * string) :=
  emit (Exec command) ;;
  match ssh_client command with
  | Ran exit_status output error => ret (exit_status, output, error)
  | CtrlC => raise KeyboardInterrupt
  | Broken => raise TransportError
  end.

Definition probe_cmd (log_dir : string) : string :=
  ("test -f " ++ log_dir
   ++ "/DOWNLOAD_COMPLETE && echo 'Downloaded' || echo 'Not Downloaded'")%string.

Definition check_log_download_status (ssh_client : host) (log_dir : string)
  : run bool :=
  r <- execute_remote_command ssh_client (probe_cmd log_dir) ;;
  let '(_, output, _) := r in
  if Str.contains "Downloaded" output then
    emit (Print MsgAlreadyDownloaded) ;; ret true
  else
    emit (Print MsgNotDownloaded) ;; ret false.

Definition download_cmd (args : Args) : string :=
  ("sudo /opt/download_logs.sh --type " ++ log_type args
   ++ " --dir " ++ log_dir args ++ " --split 500")%string.

Definition download_logs (ssh_client : host) (args : Args) : run bool :=
  r <- execute_remote_command ssh_client (download_cmd args) ;;
  let '(exit_status, _, _) := r in
  if negb (exit_status =? 0) then
    emit (Print (MsgDownloadFailed exit_status)) ;; ret false
  else
    ret true.

Definition mkdir_cmd (log_dir : string) : string :=
  ("sudo mkdir -p " ++ log_dir ++ "/logstash_input")%string.

Definition symlink_cmd (log_dir : string) : string :=
  (Str.nl
   ++ "    sudo find " ++ log_dir ++ " -path " ++ Str.quoted "*/split_logs/*"
   ++ " -type f -not -name " ++ Str.quoted "*.original"
   ++ " | while read -r file; do" ++ Str.nl
   ++ "        sudo ln -sf " ++ Str.quoted "$file" ++ " "
   ++ Str.quoted (log_dir ++ "/logstash_input/$(basename "
                  ++ Str.quoted "$file" ++ ")")
   ++ Str.nl ++ "    done" ++ Str.nl ++ "    ")%string.

Definition count_cmd (log_dir : string) : string :=
  ("ls -la " ++ log_dir ++ "/logstash_input/ | wc -l")%string.

Definition chown_cmd (log_dir : string) : string :=
  ("sudo chown -R logstash:logstash " ++ log_dir ++ "/logstash_input/")%string.

(** The number of links is only printed; a count that does not parse is
    reported and the step goes on. *)
Definition create_symlinks (ssh_client : host) (log_dir : string) : run bool :=
  execute_remote_command ssh_client (mkdir_cmd log_dir) ;;
  r <- execute_remote_command ssh_client (symlink_cmd log_dir) ;;
  let '(exit_status, _, _) := r in
  if negb (exit_status =? 0) then
    emit (Print (MsgSymlinksFailed exit_status)) ;; ret false
  else
    execute_remote_command ssh_client (count_cmd log_dir) ;;
    execute_remote_command ssh_client (chown_cmd log_dir) ;;
    ret true.

Definition restart_cmd : string := "sudo systemctl restart logstash".

Definition check_cmd (args : Args) : string :=
  let base :=
    ("python3 /opt/check_elastic_data.py --cloud-id " ++ cloud_id args
     ++ " --api-key " ++ api_key args)%string in
  let with_index :=
    match index args with
    | Some p => if Str.truthy p then (base ++ " --index " ++ p)%string else base
    | None => base
    end in
  if verbose args then (with_index ++ " --verbose")%string else with_index.

Definition run_check_elastic_script (ssh_client : host) (args : Args)
  : run bool :=
  r <- execute_remote_command ssh_client (check_cmd args) ;;
  let '(exit_status, _, _) := r in
  ret (exit_status =? 0).

End Remote.

(** ** The driver *)

Module Driver.

Import Py.
Local Open Scope py_scope.

Inductive es_connection : Type :=
| Connected
| PingFailed
| ConnectRaised
| ConnectInterrupted.

(** Everything one run of [main] takes from outside, from the SSH connection
    on.  [first_query = None] and [grace_sleep_interrupted] stand for Ctrl-C
    during the first count query and during [time.sleep(10)]. *)
Record World : Type := {
  ssh_connects : bool;
  remote : Remote.host;
  grace_sleep_interrupted : bool;
  elasticsearch : es_connection;
  today : string;
  first_query : option Monitor.es_reply;
  started : Z;
  events : list Monitor.event
}.

Definition time_sleep (secs : Z) (interrupted : bool) : run unit :=
  if secs <? 0 then raise ValueError
  else emit (Sleep secs) ;;
       if interrupted then raise KeyboardInterrupt else ret tt.

Definition setup_elasticsearch_client (w : World) : run unit :=
  emit ConnectEs ;;
  match elasticsearch w with
  | Connected => ret tt
  | PingFailed => emit (Print MsgEsUnreachable) ;; sys_exit 1
  | ConnectRaised => emit (Print MsgEsUnreachable) ;; sys_exit 1
  | ConnectInterrupted => raise KeyboardInterrupt
  end.

(** The call [monitor_elasticsearch(es, args)] as [main] sees it. *)
Definition monitor (args : Args) (w : World) : run Z :=
  emit (Watch (Monitor.index_pattern args (today w))) ;;
  match first_query w with
  | None => raise KeyboardInterrupt
  | Some first =>
      match Monitor.monitor_elasticsearch args first (started w) (events w) with
      | Monitor.Returned _ new_docs => ret new_docs
      | Monitor.Raised e => raise e
      | Monitor.Polling _ => ([], Running)
      end
  end.

(** The [try] block of [main] up to the client of the search service: probe,
    download, link farm, restart, grace delay, connection. *)
Definition setup (args : Args) (w : World) : run unit :=
  logs_downloaded <- Remote.check_log_download_status (remote w) (log_dir args) ;;
  (if negb logs_downloaded || force_download args then
     ok <- Remote.download_logs (remote w) args ;;
     if negb ok then sys_exit 1 else ret tt
   else ret tt) ;;
  ok <- Remote.create_symlinks (remote w) (log_dir args) ;;
  (if negb ok then sys_exit 1 else ret tt) ;;
  Remote.execute_remote_command (remote w) Remote.restart_cmd ;;
  time_sleep 10 (grace_sleep_interrupted w) ;;
  setup_elasticsearch_client w.

(** The end of the [try] block: what [main] makes of the monitor's count. *)
Definition verdict (args : Args) (w : World) (new_docs : Z) : run unit :=
  if new_docs >? 0 then
    emit (Print (MsgSuccess new_docs)) ;;
    (if verbose args then
       try_except_Exception
         (Remote.run_check_elastic_script (remote w) args ;; ret tt)
         (emit (Print MsgCheckScriptError))
     else ret tt) ;;
    sys_exit 0
  else
    emit (Print MsgNoNewDocuments) ;;
    sys_exit 1.

Definition close : run unit :=
  emit CloseSsh ;; emit (Print MsgSshClosed).

(** [main] once [setup_ssh_client] has returned a client. *)
Definition main_connected (args : Args) (w : World) : run unit :=
  try_finally
    (setup args w ;;
     new_docs <- monitor args w ;;
     verdict args w new_docs)
    close.

(** [main] from the call of [setup_ssh_client] on, that is once
    [parse_args] has returned [args]; [setup_ssh_client] leaves with
    [sys.exit(1)] when the connection fails.  [Entry.main] is the whole of
    it. *)
Definition main (args : Args) (w : World) : run unit :=
  if ssh_connects w then main_connected args w else sys_exit 1.

Definition exit_code {A} (r : run A) : option Z :=
  match snd r with
  | Raise (SystemExit code) => Some code
  | _ => None
  end.

End Driver.

(** ** Vocabulary of the statements *)

Module Shape.

Import Monitor.


(** [events] are undisturbed iterations whose counts never go down, starting
    from the count [prev] sampled before them. *)
Fixpoint rising (prev : Z) (events : list event) : bool :=
  match events with
  | [] => true
  | Sample _ r :: rest =>
      (prev <=? get_doc_count r) && rising (get_doc_count r) rest
  | _ => false
  end.




(** The last sample is either at most the first one, or it is the count the
    current stability window began with. *)
Definition settled (w : Window) : Prop :=
  last_count w <= initial_count w \/ stable_count w = last_count w.

(** The assignments of the [Ingesting] branch were made. *)
Definition resets (w : Window) (c : Z) : bool :=
  negb (c =? initial_count w) && (c >? last_count w).

(** A computation that neither closes the SSH connection nor is left
    waiting for input. *)
Definition tidy {A : Type} (m : Py.run A) : Prop :=
  ~ In Py.CloseSsh (fst m) /\ snd m <> Py.Running.

End Shape.

(** ** Concrete runs *)

Module Scenario.

Import Monitor.

Definition args0 : Args :=
  {| log_type := "linux";
     log_dir := "/opt/logstash_data";
     force_download := false;
     cloud_id := "cid";
     api_key := "key";
     index := None;
     stable_time := 20;
     check_interval := 10;
     verbose := false |}.

Definition forced : Args :=
  {| log_type := "linux";
     log_dir := "/opt/logstash_data";
     force_download := true;
     cloud_id := "cid";
     api_key := "key";
     index := None;
     stable_time := 20;
     check_interval := 10;
     verbose := false |}.

Definition docs (n : N) : es_reply := EsIndices [("filebeat-7.17.0"%string, n)].

(** The iterations are ten seconds apart, the first at second ten. *)
Definition every_ten (k : nat) : Z := 10 * Z.of_nat (S k).

(** After a first sample of 0: 0, 100, 250, 250, 250, ... *)
Definition growth (k : nat) : es_reply :=
  match k with
  | O => docs 0
  | S O => docs 100
  | _ => docs 250
  end.

(** A static index of five documents. *)
Definition static (_ : nat) : es_reply := docs 5.

(** 250 documents from the first iteration on. *)
Definition full (_ : nat) : es_reply := docs 250.

(** Iterations ten seconds apart, the first at second thirty. *)
Definition from_thirty (k : nat) : Z := 10 * Z.of_nat (k + 3).

(** No command of the trace is the download command. *)
Definition no_download (args : Args) (trace : list Py.action) : bool :=
  forallb (fun a => match a with
                    | Py.Exec c => negb (String.eqb c (Remote.download_cmd args))
                    | _ => true
                    end) trace.

(** The remote host answers every command with exit status 0 and no output,
    except the probe, which the shell answers by the marker file. *)
Definition remote_host (marker : bool) (download_status : Z) (args : Args)
  : Remote.host :=
  fun command =>
    if String.eqb command (Remote.probe_cmd (log_dir args)) then
      Remote.Ran 0 ((if marker then "Downloaded" else "Not Downloaded")
                    ++ Str.nl)%string ""
    else if String.eqb command (Remote.download_cmd args) then
      Remote.Ran download_status "" ""
    else
      Remote.Ran 0 "" "".

Definition world (marker : bool) (download_status : Z) (args : Args)
  (events : list event) : Driver.World :=
  {| Driver.ssh_connects := true;
     Driver.remote := remote_host marker download_status args;
     Driver.grace_sleep_interrupted := false;
     Driver.elasticsearch := Driver.Connected;
     Driver.today := "2026.01.15";
     Driver.first_query := Some (docs 0);
     Driver.started := 0;
     Driver.events := events |}.

End Scenario.

(** ** Further vocabulary *)

Module Terms.

Import Monitor.

(** The documents of all the indices of a stats reply. *)
Definition total (indices : list (string * N)) : Z :=
  fold_right (fun idx acc => Z.of_N (snd idx) + acc) 0 indices.

(** The counts the undisturbed iterations of [events] sample, in order. *)
Definition sampled_counts (events : list event) : list Z :=
  flat_map (fun e => match e with
                     | Sample _ r => [get_doc_count r]
                     | _ => []
                     end) events.

(** The command ran to its end, with whatever exit status. *)
Definition ran (r : Remote.reply) : bool :=
  match r with
  | Remote.Ran _ _ _ => true
  | _ => false
  end.

(** The command ran to its end with exit status 0. *)
Definition succeeded (r : Remote.reply) : bool :=
  match r with
  | Remote.Ran exit_status _ _ => exit_status =? 0
  | _ => false
  end.

Definition output_of (r : Remote.reply) : string :=
  match r with
  | Remote.Ran _ output _ => output
  | _ => EmptyString
  end.

(** What the setup steps need from the outside to go through. *)
Definition setup_ok (args : Args) (w : Driver.World) : bool :=
  let h := Driver.remote w in
  let probe := h (Remote.probe_cmd (log_dir args)) in
  ran probe
  && (if negb (Str.contains "Downloaded" (output_of probe))
         || force_download args
      then succeeded (h (Remote.download_cmd args))
      else true)
  && ran (h (Remote.mkdir_cmd (log_dir args)))
  && succeeded (h (Remote.symlink_cmd (log_dir args)))
  && ran (h (Remote.count_cmd (log_dir args)))
  && ran (h (Remote.chown_cmd (log_dir args)))
  && ran (h Remote.restart_cmd)
  && negb (Driver.grace_sleep_interrupted w)
  && match Driver.elasticsearch w with
     | Driver.Connected => true
     | _ => false
     end.

(** Above the initial count, the last sample is at most the count the
    stability window began with. *)
Definition capped (w : Window) : Prop :=
  initial_count w < last_count w -> last_count w <= stable_count w.


(** A computation that leaves by [sys.exit] only with code 1. *)
Definition exits_with_one {A : Type} (m : Py.run A) : Prop :=
  forall code, snd m = Py.Raise (Py.SystemExit code) -> code = 1.

End Terms.

(** ** The check script ([check_elastic_data.py]) *)

Module CheckElastic.

Import Py.

Record Args : Type := {
  cloud_id : string;
  api_key : string;
  index : option string;
  wait : Z;
  verbose : bool
}.

Definition get_today_index (today : string) : string :=
  ("filebeat-7.*-" ++ today)%string.

Record hit : Type := {
  hit_index : string;
  hit_fields : list string
}.

(** Reply of [es.search]: an [Exception], or the hits (which are printed
    and nothing more). *)
Inductive search_reply : Type :=
| SearchError
| SearchHits (hits : list hit).

(** What the script asks of the outside, in order. *)
Inductive request : Type :=
| Connect
| Stats (pattern : string)
| Search (pattern : string)
| Pause (secs : Z).

Definition check_data_exists (index_pattern : option string) (today : string)
  (stats : Monitor.es_reply) (search : search_reply) : list request * bool :=
  let pattern :=
    match index_pattern with
    | None => get_today_index today
    | Some p => p
    end in
  match stats with
  | Monitor.EsError => ([Stats pattern], false)
  | Monitor.EsIndices [] => ([Stats pattern], false)
  | Monitor.EsIndices indices =>
      let total_docs :=
        fold_left (fun total_docs idx => total_docs + Z.of_N (snd idx))
          indices 0 in
      if total_docs >? 0 then
        match search with
        | SearchError => ([Stats pattern; Search pattern], false)
        | SearchHits _ => ([Stats pattern; Search pattern], true)
        end
      else ([Stats pattern], false)
  end.

(** One pass of the [while] loop of [main]: the clock as the loop test
    reads it, the replies [check_data_exists] gets, the clock as the
    computation of [remaining] reads it.  When the loop test fails the rest
    of the round is not consulted. *)
Record round : Type := {
  at_test : Z;
  stats : Monitor.es_reply;
  search : search_reply;
  at_remaining : Z
}.

Fixpoint wait_loop (args : Args) (index_pattern today : string)
  (start_time : Z) (rounds : list round) : list request * outcome unit :=
  match rounds with
  | [] => ([], Running)
  | r :: rest =>
      if at_test r - start_time <? wait args then
        let checked :=
          check_data_exists (Some index_pattern) today (stats r) (search r) in
        if snd checked then (fst checked, Raise (SystemExit 0))
        else
          let remaining := wait args - (at_remaining r - start_time) in
          if remaining <=? 0 then (fst checked, Raise (SystemExit 1))
          else
            let wait_time := Z.min 10 remaining in
            if wait_time <? 0 then (fst checked, Raise ValueError)
            else
              let later := wait_loop args index_pattern today start_time rest in
              (fst checked ++ Pause wait_time :: fst later, snd later)
      else ([], Raise (SystemExit 1))
  end.

Definition main (args : Args) (connection : Driver.es_connection)
  (today : string) (start_time : Z) (rounds : list round)
  : list request * outcome unit :=
  match connection with
  | Driver.Connected =>
      let index_pattern :=
        match index args with
        | Some p => if Str.truthy p then p else get_today_index today
        | None => get_today_index today
        end in
      if wait args >? 0 then
        let looped := wait_loop args index_pattern today start_time rounds in
        (Connect :: fst looped, snd looped)
      else
        match rounds with
        | [] => ([Connect], Running)
        | r :: _ =>
            let checked :=
              check_data_exists (Some index_pattern) today (stats r) (search r)
            in
            (Connect :: fst checked,
             Raise (SystemExit (if snd checked then 0 else 1)))
        end
  | Driver.PingFailed | Driver.ConnectRaised =>
      ([Connect], Raise (SystemExit 1))
  | Driver.ConnectInterrupted => ([Connect], Raise KeyboardInterrupt)
  end.

(** The replies of the round show documents: a positive count and a
    search that did not fail. *)
Definition has_data (r : round) : bool :=
  (0 <? Monitor.get_doc_count (stats r))
  && match search r with
     | SearchError => false
     | SearchHits _ => true
     end.





End CheckElastic.

(** ** The S3 check script ([check_s3_data.py]) *)

Module CheckS3.

Import Py.

(** An entry of a listing.  [LastModified] is a point in time, in
    microseconds, as are all clock readings of this module that feed
    [datetime] arithmetic. *)
Record s3_object : Type := {
  Key : string;
  LastModified : Z
}.

(** One page of the paginator: with or without ['Contents'], or the
    exception raised while it is fetched. *)
Inductive page : Type :=
| Contents (objects : list s3_object)
| NoContents
| ClientError (code : string)
| OtherError.

(** [l[:n]] *)
Definition slice_to {A : Type} (n : Z) (l : list A) : list A :=
  if n <? 0 then firstn (Z.to_nat (Z.of_nat (List.length l) + n)) l
  else firstn (Z.to_nat n) l.

(** Truth value of [max_items]: [None] and 0 are false. *)
Definition given (max_items : option Z) : bool :=
  match max_items with
  | None => false
  | Some n => negb (n =? 0)
  end.

Definition limit (max_items : option Z) : Z :=
  match max_items with
  | None => 0
  | Some n => n
  end.

(** How the [for page in page_iterator] loop ends. *)
Inductive gathered : Type :=
| Gathered (objects : list s3_object)
| ClientFailed (code : string)
| OtherFailed.

Fixpoint gather (max_items : option Z) (pages : list page)
  (objects : list s3_object) : gathered :=
  match pages with
  | [] => Gathered objects
  | Contents contents :: rest =>
      let objects' := (objects ++ contents)%list in
      if given max_items
         && (Z.of_nat (List.length objects') >=? limit max_items)
      then Gathered (slice_to (limit max_items) objects')
      else gather max_items rest objects'
  | NoContents :: rest => gather max_items rest objects
  | ClientError code :: _ => ClientFailed code
  | OtherError :: _ => OtherFailed
  end.

(** [sorted(objects, key=lambda x: x['LastModified'], reverse=True)]: latest
    first, objects of equal time in their original order. *)
Fixpoint insert_latest_first (x : s3_object) (l : list s3_object)
  : list s3_object :=
  match l with
  | [] => [x]
  | y :: ys =>
      if LastModified x <? LastModified y then y :: insert_latest_first x ys
      else x :: y :: ys
  end.

Definition sorted_latest_first (l : list s3_object) : list s3_object :=
  fold_right insert_latest_first [] l.

Definition list_s3_objects (max_items : option Z) (pages : list page)
  : outcome (list s3_object) :=
  match gather max_items pages [] with
  | Gathered objects => Normal (sorted_latest_first objects)
  | ClientFailed _ => Normal []
  | OtherFailed => Raise TransportError
  end.

(** [str(n)] for an [int]. *)
Definition str (n : Z) : string := NilZero.string_of_int (Z.to_int n).

(** The fields [days] and [seconds] of the [timedelta] [now - timestamp]. *)
Definition delta_days (now timestamp : Z) : Z :=
  (now - timestamp) / 86400000000.

Definition delta_seconds (now timestamp : Z) : Z :=
  ((now - timestamp) mod 86400000000) / 1000000.

Definition format_time_ago (now timestamp : Z) : string :=
  let days := delta_days now timestamp in
  let seconds := delta_seconds now timestamp in
  if days >? 0 then
    (str days ++ " day" ++ (if negb (days =? 1)%Z then "s" else "") ++ " ago")%string
  else
    let hours := seconds / 3600 in
    if hours >? 0 then
      (str hours ++ " hour" ++ (if negb (hours =? 1)%Z then "s" else "")
       ++ " ago")%string
    else
      let minutes := (seconds mod 3600) / 60 in
      if minutes >? 0 then
        (str minutes ++ " minute" ++ (if negb (minutes =? 1)%Z then "s" else "")
         ++ " ago")%string
      else
        (str (seconds mod 60)%Z ++ " second"
         ++ (if negb (seconds mod 60 =? 1)%Z then "s" else "") ++ " ago")%string.

(** Vocabulary for [format_time_ago]. *)
Inductive time_unit : Type :=
| Days
| Hours
| Minutes
| Seconds.

Definition micros (u : time_unit) : Z :=
  match u with
  | Days => 86400000000
  | Hours => 3600000000
  | Minutes => 60000000
  | Seconds => 1000000
  end.

Definition unit_name (u : time_unit) : string :=
  match u with
  | Days => "day"
  | Hours => "hour"
  | Minutes => "minute"
  | Seconds => "second"
  end.

Definition phrase (n : Z) (u : time_unit) : string :=
  (str n ++ " " ++ unit_name u ++ (if (n =? 1)%Z then "" else "s")
   ++ " ago")%string.

(** Latest first. *)
Definition latest_first (l : list s3_object) : Prop :=
  StronglySorted (fun a b => LastModified b <= LastModified a) l.

(** The objects of the pages that carry some, in listing order. *)
Definition listed (pages : list page) : list s3_object :=
  flat_map (fun p => match p with
                     | Contents objects => objects
                     | _ => []
                     end) pages.

Definition fetched (p : page) : bool :=
  match p with
  | Contents _ | NoContents => true
  | _ => false
  end.

(** What [check_object_content] comes to for one object: the dictionary it
    builds (its record count is all the caller may print), [None] after a
    [ClientError] of [get_object], or an exception it does not catch (a body
    that is not UTF-8, say). *)
Inductive content : Type :=
| Info (record_count : option Z)
| Unavailable
| Undecoded.

(** The loop [for obj in objects[:max_count]] of [check_s3_data]. *)
Fixpoint inspect_all (inspect : string -> content) (objects : list s3_object)
  : outcome (list (string * option Z)) :=
  match objects with
  | [] => Normal []
  | obj :: rest =>
      match inspect (Key obj) with
      | Undecoded => Raise ValueError
      | Unavailable => inspect_all inspect rest
      | Info record_count =>
          match inspect_all inspect rest with
          | Normal detailed => Normal ((Key obj, record_count) :: detailed)
          | Raise e => Raise e
          | Running => Running
          end
      end
  end.

(** [get_s3_client] leaves with [sys.exit(1)] when the client cannot be
    made. *)
Definition check_s3_data (client_made : bool) (max_count : Z)
  (pages : list page) (inspect : string -> content)
  : outcome (bool * list (string * option Z)) :=
  if client_made then
    match list_s3_objects (Some max_count) pages with
    | Normal [] => Normal (false, [])
    | Normal objects =>
        match inspect_all inspect (slice_to max_count objects) with
        | Normal detailed_objects => Normal (true, detailed_objects)
        | Raise e => Raise e
        | Running => Running
        end
    | Raise e => Raise e
    | Running => Running
    end
  else Raise (SystemExit 1).

Record Args : Type := {
  bucket : string;
  prefix : string;
  wait : Z;
  count : Z;
  verbose : bool
}.

(** One pass of the [while] loop of [main]: the clock at the loop test (in
    seconds), the pages of the listing, what the call of [check_s3_data]
    meets if new keys show, and the clock at the computation of
    [remaining]. *)
Record round : Type := {
  at_test : Z;
  listing : list page;
  client_made : bool;
  relisting : list page;
  at_remaining : Z
}.

(** The keys of [current_keys - initial_keys], with repetitions. *)
Definition new_keys (initial current : list s3_object) : list string :=
  filter (fun k => negb (Str.mem k (map Key initial))) (map Key current).

Fixpoint wait_loop (args : Args) (inspect : string -> content)
  (start_time : Z) (initial_objects : list s3_object) (rounds : list round)
  : list Z * outcome Z :=
  match rounds with
  | [] => ([], Running)
  | r :: rest =>
      if at_test r - start_time <? wait args then
        match list_s3_objects None (listing r) with
        | Normal current_objects =>
            match new_keys initial_objects current_objects with
            | _ :: _ =>
                match check_s3_data (client_made r) (count args)
                        (relisting r) inspect with
                | Normal (has_data, _) =>
                    ([], Normal (if has_data then 0 else 1))
                | Raise e => ([], Raise e)
                | Running => ([], Running)
                end
            | [] =>
                let remaining := wait args - (at_remaining r - start_time) in
                if remaining <=? 0 then ([], Normal 1)
                else
                  let wait_time := Z.min 10 remaining in
                  if wait_time <? 0 then ([], Raise ValueError)
                  else
                    let later :=
                      wait_loop args inspect start_time initial_objects rest in
                    (wait_time :: fst later, snd later)
            end
        | Raise e => ([], Raise e)
        | Running => ([], Running)
        end
      else ([], Normal 1)
  end.

(** [sys.exit(main())].  With [--wait] the first client and the first
    listing come before the loop; without it the first round alone is
    consulted, for the one call of [check_s3_data]. *)
Definition main (args : Args) (inspect : string -> content)
  (first_client_made : bool) (first_listing : list page)
  (start_time : Z) (rounds : list round) : list Z * outcome unit :=
  if wait args >? 0 then
    if first_client_made then
      match list_s3_objects None first_listing with
      | Normal initial_objects =>
          let looped :=
            wait_loop args inspect start_time initial_objects rounds in
          (fst looped,
           match snd looped with
           | Normal code => Raise (SystemExit code)
           | Raise e => Raise e
           | Running => Running
           end)
      | Raise e => ([], Raise e)
      | Running => ([], Running)
      end
    else ([], Raise (SystemExit 1))
  else
    match rounds with
    | [] => ([], Running)
    | r :: _ =>
        match check_s3_data (client_made r) (count args) (relisting r)
                inspect with
        | Normal (has_data, _) =>
            ([], Raise (SystemExit (if has_data then 0 else 1)))
        | Raise e => ([], Raise e)
        | Running => ([], Running)
        end
    end.

(** Some key of the listing of the round is not among the first keys. *)
Definition shows_new_key (initial_objects : list s3_object) (r : round)
  : bool :=
  match list_s3_objects None (listing r) with
  | Normal current_objects =>
      match new_keys initial_objects current_objects with
      | [] => false
      | _ :: _ => true
      end
  | _ => false
  end.

End CheckS3.

(** ** More concrete runs *)

Module Samples.

(** [--stable-time 0] *)
Definition impatient : Args :=
  {| log_type := "linux";
     log_dir := "/opt/logstash_data";
     force_download := false;
     cloud_id := "cid";
     api_key := "key";
     index := None;
     stable_time := 0;
     check_interval := 10;
     verbose := false |}.


(** [check_elastic_data.py --wait 25] *)
Definition waiting : CheckElastic.Args :=
  {| CheckElastic.cloud_id := "cid";
     CheckElastic.api_key := "key";
     CheckElastic.index := None;
     CheckElastic.wait := 25;
     CheckElastic.verbose := false |}.

Definition empty_round (test remaining : Z) : CheckElastic.round :=
  {| CheckElastic.at_test := test;
     CheckElastic.stats := Monitor.EsIndices [];
     CheckElastic.search := CheckElastic.SearchError;
     CheckElastic.at_remaining := remaining |}.

(** Four rounds that find nothing, the clock starting at 0. *)
Definition empty_rounds : list CheckElastic.round :=
  [empty_round 0 1; empty_round 11 12; empty_round 22 23; empty_round 25 26].

Definition older : CheckS3.s3_object :=
  {| CheckS3.Key := "linux_logs/a.json"; CheckS3.LastModified := 100 |}.

Definition newer : CheckS3.s3_object :=
  {| CheckS3.Key := "linux_logs/b.json"; CheckS3.LastModified := 200 |}.

Definition newest : CheckS3.s3_object :=
  {| CheckS3.Key := "linux_logs/c.json"; CheckS3.LastModified := 300 |}.

(** A listing in two pages, the latest object on the second. *)
Definition two_pages : list CheckS3.page :=
  [CheckS3.Contents [older; newer]; CheckS3.Contents [newest]].

End Samples.

(** ** The whole of [main] *)

Module Entry.

Import Py.
Local Open Scope py_scope.

(** What [argparse] makes of the command line: the parsed arguments, or the
    usage message with [sys.exit(2)] for a missing or malformed option, or
    the help text with [sys.exit(0)] for [--help]. *)
Inductive command_line : Type :=
| Parsed (args : Args)
| Rejected
| HelpAsked.

Definition parse_args (c : command_line) : run Args :=
  match c with
  | Parsed args => ret args
  | Rejected => sys_exit 2
  | HelpAsked => sys_exit 0
  end.

Definition main (c : command_line) (w : Driver.World) : run unit :=
  args <- parse_args c ;;
  Driver.main args w.

End Entry.

(** * Properties *)

(** ** The window under [observe] *)

Section WindowFacts.

Import Monitor Shape.



Lemma observe_initial_count (w : Window) (now c : Z) :
  initial_count (snd (observe w now c)) = initial_count w.
Proof.
  unfold observe.
  destruct (c =? initial_count w); [reflexivity|].
  destruct (c - last_count w >? 0); reflexivity.
Qed.

Lemma observe_last_count (w : Window) (now c : Z) :
  last_count (snd (observe w now c)) = c.
Proof.
  unfold observe.
  destruct (c =? initial_count w); [reflexivity|].
  destruct (c - last_count w >? 0); reflexivity.
Qed.

Lemma observe_current_count (w : Window) (now c : Z) :
  current_count (snd (observe w now c)) = Some c.
Proof.
  unfold observe.
  destruct (c =? initial_count w); [reflexivity|].
  destruct (c - last_count w >? 0); reflexivity.
Qed.

Lemma observe_max_count (w : Window) (now c : Z) :
  max_count (snd (observe w now c)) = Z.max (max_count w) c.
Proof.
  unfold observe.
  destruct (c =? initial_count w);
    [|destruct (c - last_count w >? 0)]; simpl;
    destruct (Z.gtb_spec c (max_count w)); lia.
Qed.

(** The two branches of [observe] on the stability window. *)
Lemma observe_window (w : Window) (now c : Z) :
  let w' := snd (observe w now c) in
  if resets w c
  then stable_since w' = now /\ stable_count w' = c
  else stable_since w' = stable_since w /\ stable_count w' = stable_count w.
Proof.
  unfold resets, observe.
  destruct (Z.eqb_spec c (initial_count w)) as [Heq|Hne]; simpl.
  - split; reflexivity.
  - destruct (Z.gtb_spec (c - last_count w) 0) as [Hgt|Hle];
      destruct (Z.gtb_spec c (last_count w)) as [Hgt'|Hle'];
      simpl; try lia; split; reflexivity.
Qed.

Lemma observe_resets (w : Window) (now c : Z) :
  resets w c = true ->
  stable_since (snd (observe w now c)) = now
  /\ stable_count (snd (observe w now c)) = c.
Proof.
  intros H. pose proof (observe_window w now c) as Hw.
  simpl in Hw. rewrite H in Hw. exact Hw.
Qed.

Lemma observe_keeps (w : Window) (now c : Z) :
  resets w c = false ->
  stable_since (snd (observe w now c)) = stable_since w
  /\ stable_count (snd (observe w now c)) = stable_count w.
Proof.
  intros H. pose proof (observe_window w now c) as Hw.
  simpl in Hw. rewrite H in Hw. exact Hw.
Qed.

Lemma resets_iff (w : Window) (c : Z) :
  resets w c = true <-> c <> initial_count w /\ last_count w < c.
Proof.
  unfold resets.
  destruct (Z.eqb_spec c (initial_count w)) as [Heq|Hne];
    destruct (Z.gtb_spec c (last_count w)) as [Hgt|Hle]; simpl;
    split; intros Hr; try discriminate; try lia; reflexivity.
Qed.

Lemma reached_stable_iff (args : Args) (w : Window) (now c : Z) :
  reached_stable args w now c = true <->
  initial_count w < c /\ c = stable_count w
  /\ stable_time args <= now - stable_since w.
Proof.
  unfold reached_stable.
  rewrite !andb_true_iff, Z.gtb_ltb, Z.ltb_lt, Z.eqb_eq, Z.geb_le.
  tauto.
Qed.

(** A sample that is not below the previous one keeps the window settled. *)
Lemma settled_observe (w : Window) (now c : Z) :
  settled w -> last_count w <= c -> settled (snd (observe w now c)).
Proof.
  intros Hs Hle. unfold settled.
  rewrite observe_last_count, observe_initial_count.
  destruct (resets w c) eqn:Hr.
  - right. apply (observe_resets w now c Hr).
  - destruct (observe_keeps w now c Hr) as [_ Hc]. rewrite Hc.
    destruct (Z.eq_dec c (initial_count w)) as [->|Hne]; [left; lia|].
    assert (Hnot : ~ last_count w < c).
    { intros Hlt.
      assert (resets w c = true) by (apply resets_iff; split; assumption).
      congruence. }
    assert (c = last_count w) by lia. subst c.
    destruct Hs as [Hs|Hs]; [left; exact Hs | right; exact Hs].
Qed.



End WindowFacts.

(** ** The loop over a list of events *)

Section LoopFacts.

Import Monitor Shape.

Variable args : Args.

Lemma loop_app (w : Window) (l1 l2 : list event) :
  loop args w (l1 ++ l2) =
  match loop args w l1 with
  | Polling w' => loop args w' l2
  | r => r
  end.
Proof.
  revert w.
  induction l1 as [|e l1 IH]; intros w; simpl; [reflexivity|].
  destruct e as [now r| |now r].
  - destruct (reached_stable args _ now (get_doc_count r)); [reflexivity|].
    destruct (check_interval args <? 0); [reflexivity|]. apply IH.
  - destruct (current_count w); reflexivity.
  - reflexivity.
Qed.

Lemma track_app (w : Window) (l1 l2 : list event) :
  forallb is_sample l1 = true ->
  track w (l1 ++ l2) = track (track w l1) l2.
Proof.
  revert w.
  induction l1 as [|e l1 IH]; intros w Hall; simpl; [reflexivity|].
  destruct e; simpl in Hall; try discriminate.
  apply IH. exact Hall.
Qed.

Lemma track_initial_count (w : Window) (l : list event) :
  initial_count (track w l) = initial_count w.
Proof.
  revert w.
  induction l as [|e l IH]; intros w; simpl; [reflexivity|].
  destruct e; try reflexivity.
  rewrite IH. apply observe_initial_count.
Qed.

Lemma track_max_count (w : Window) (l : list event) :
  max_count w <= max_count (track w l).
Proof.
  revert w.
  induction l as [|e l IH]; intros w; simpl; [lia|].
  destruct e as [now r| |now r]; try lia.
  specialize (IH (snd (observe w now (get_doc_count r)))).
  rewrite observe_max_count in IH. lia.
Qed.

(** While the loop polls, its variables are those [track] computes. *)
Lemma loop_polling (w w' : Window) (l : list event) :
  loop args w l = Polling w' ->
  w' = track w l /\ forallb is_sample l = true.
Proof.
  revert w.
  induction l as [|e l IH]; intros w H; simpl in *.
  - split; congruence.
  - destruct e as [now r| |now r].
    + destruct (reached_stable args _ now (get_doc_count r)); [discriminate|].
      destruct (check_interval args <? 0); [discriminate|].
      apply IH. exact H.
    + destruct (current_count w); discriminate.
    + discriminate.
Qed.

Lemma loop_polling_initial_count (w w' : Window) (l : list event) :
  loop args w l = Polling w' -> initial_count w' = initial_count w.
Proof.
  intros H. apply loop_polling in H. destruct H as [-> _].
  apply track_initial_count.
Qed.


(** The loop stops as stable exactly at the first sample that passes the
    test, and returns that sample less the initial count. *)
Lemma loop_stable_iff (w : Window) (l : list event) (d : Z) :
  loop args w l = Returned Stable d <->
  exists before now r after w',
    l = before ++ Sample now r :: after
    /\ loop args w before = Polling w'
    /\ reached_stable args (snd (observe w' now (get_doc_count r)))
         now (get_doc_count r) = true
    /\ d = get_doc_count r - initial_count w.
Proof.
  split.
  - revert w.
    induction l as [|e l IH]; intros w H; simpl in H; [discriminate|].
    destruct e as [now r| |now r].
    + destruct (reached_stable args _ now (get_doc_count r)) eqn:Hr.
      * exists [], now, r, l, w. simpl.
        rewrite observe_initial_count in H.
        repeat split; [exact Hr | congruence].
      * destruct (check_interval args <? 0) eqn:Hi; [discriminate|].
        apply IH in H.
        destruct H as (before & now' & r' & after & w' & -> & Hp & Hs & ->).
        exists (Sample now r :: before), now', r', after, w'. simpl.
        rewrite Hr, Hi, observe_initial_count.
        repeat split; assumption.
    + destruct (current_count w); discriminate.
    + discriminate.
  - intros (before & now & r & after & w' & -> & Hp & Hs & ->).
    rewrite loop_app, Hp. simpl. rewrite Hs.
    rewrite observe_initial_count.
    rewrite (loop_polling_initial_count _ _ _ Hp). reflexivity.
Qed.


End LoopFacts.

(** ** Unending undisturbed runs *)

Section StreamFacts.

Import Monitor Shape.

Variable args : Args.
Variable clock : nat -> Z.
Variable reply : nat -> es_reply.










End StreamFacts.

(** ** More on the loop: stops and interrupts *)

Section StopFacts.

Import Monitor Shape.

Variable args : Args.

Lemma stable_stop_positive (w : Window) (l : list event) (d : Z) :
  loop args w l = Returned Stable d -> 0 < d.
Proof.
  intros H. apply loop_stable_iff in H.
  destruct H as (before & now & r & after & w' & _ & Hp & Hs & ->).
  apply reached_stable_iff in Hs. destruct Hs as [Hgt _].
  rewrite observe_initial_count in Hgt.
  rewrite (loop_polling_initial_count _ _ _ _ Hp) in Hgt. lia.
Qed.


(** On counts that never go down the stability window begins at the last
    sample. *)
Lemma rising_track (w : Window) (l : list event) :
  stable_count w = last_count w -> initial_count w <= last_count w ->
  rising (last_count w) l = true ->
  stable_count (track w l) = last_count (track w l)
  /\ initial_count w <= last_count (track w l).
Proof.
  revert w.
  induction l as [|e l IH]; intros w Hs Hi Hr; simpl in *.
  - split; assumption.
  - destruct e as [now r| |now r]; try discriminate.
    apply andb_true_iff in Hr. destruct Hr as [Hle Hr].
    apply Z.leb_le in Hle.
    set (c := get_doc_count r) in *.
    assert (Hset : settled (snd (observe w now c))).
    { apply settled_observe; [right; exact Hs | exact Hle]. }
    rewrite <- (observe_initial_count w now c).
    apply IH.
    + destruct Hset as [Hset|Hset]; [|exact Hset].
      rewrite observe_last_count, observe_initial_count in Hset.
      assert (c = initial_count w) by lia.
      assert (Hno : resets w c = false).
      { destruct (resets w c) eqn:E; [|reflexivity].
        apply resets_iff in E. lia. }
      destruct (observe_keeps w now c Hno) as [_ Hk].
      rewrite Hk, observe_last_count. lia.
    + rewrite observe_initial_count, observe_last_count. lia.
    + rewrite observe_last_count. exact Hr.
Qed.

End StopFacts.

(** ** The claims about the monitor *)

Section MonitorClaims.

Import Monitor Shape.



(** C7 (amended).  [max_count] never goes down.  [stable_since] is set to
    the current time, and [stable_count] to the sample, exactly when the
    sample differs from [initial_count] and exceeds the previous sample
    [last_count]; otherwise both stay.  As long as the sampled counts never
    go down, that is exactly when the sample exceeds [stable_count]. *)
Theorem window_bookkeeping :
  (forall w events, max_count w <= max_count (track w events))
  /\ (forall w now c,
         max_count w <= max_count (snd (observe w now c)))
  /\ (forall w now c,
         let w' := snd (observe w now c) in
         if resets w c
         then stable_since w' = now /\ stable_count w' = c
         else stable_since w' = stable_since w
              /\ stable_count w' = stable_count w)
  /\ (forall w c,
         resets w c = true <-> c <> initial_count w /\ last_count w < c)
  /\ (forall initial started events r,
         rising initial events = true ->
         let w := track (start initial started) events in
         last_count w <= get_doc_count r ->
         (resets w (get_doc_count r) = true
          <-> stable_count w < get_doc_count r)).
Proof.
  split; [exact track_max_count|].
  split; [intros w now c; rewrite observe_max_count; lia|].
  split; [exact observe_window|].
  split; [exact resets_iff|].
  intros initial started events r Hr w Hle.
  destruct (rising_track (start initial started) events) as [Hs Hi];
    simpl; try lia; try assumption.
  fold w in Hs, Hi. simpl in Hi.
  rewrite resets_iff. unfold w at 1. rewrite track_initial_count. simpl.
  rewrite Hs. lia.
Qed.

(** C8.  [get_default_index_pattern] returns ["filebeat-*"] for every log
    type and date: its second statement returns, so whatever follows it is
    never run; without [--index] that is the pattern the monitor watches. *)
Theorem default_index_pattern_fixed :
  (forall args today, get_default_index_pattern args today = "filebeat-*"%string)
  /\ (forall args today,
         index args = None ->
         index_pattern args today = "filebeat-*"%string)
  /\ (forall (A : Type) (v rest rest' : A),
         Py.or_continue (Some v) rest = Py.or_continue (Some v) rest').
Proof.
  split; [reflexivity|]. split.
  - intros args today H. unfold index_pattern. rewrite H. reflexivity.
  - reflexivity.
Qed.

End MonitorClaims.

(** ** Computations of the driver *)

Section RunFacts.

Import Py Shape.

Lemma bind_normal {A B : Type} (m : run A) (k : A -> run B) (a : A) :
  snd m = Normal a -> bind m k = (fst m ++ fst (k a), snd (k a)).
Proof. intros H. unfold bind. rewrite H. reflexivity. Qed.

Lemma bind_raise {A B : Type} (m : run A) (k : A -> run B) (e : exn) :
  snd m = Raise e -> bind m k = (fst m, Raise e).
Proof. intros H. unfold bind. rewrite H. reflexivity. Qed.

Lemma tidy_ret {A : Type} (a : A) : tidy (ret a).
Proof. split; simpl; [tauto | discriminate]. Qed.

Lemma tidy_raise {A : Type} (e : exn) : tidy (@raise A e).
Proof. split; simpl; [tauto | discriminate]. Qed.

Lemma tidy_emit (a : action) : a <> CloseSsh -> tidy (emit a).
Proof.
  intros Ha. split; simpl; [|discriminate].
  intros [H|[]]. apply Ha. exact H.
Qed.

Lemma tidy_bind {A B : Type} (m : run A) (k : A -> run B) :
  tidy m -> (forall a, tidy (k a)) -> tidy (bind m k).
Proof.
  intros [Hm1 Hm2] Hk. unfold tidy, bind.
  destruct (snd m) as [a| e |] eqn:E; simpl.
  - destruct (Hk a) as [Hk1 Hk2]. split; [|exact Hk2].
    rewrite in_app_iff. tauto.
  - split; [exact Hm1 | discriminate].
  - congruence.
Qed.

Lemma bind_keeps_open {A B : Type} (m : run A) (k : A -> run B) :
  ~ In CloseSsh (fst m) -> (forall a, ~ In CloseSsh (fst (k a))) ->
  ~ In CloseSsh (fst (bind m k)).
Proof.
  intros Hm Hk. unfold bind.
  destruct (snd m) as [a| e |]; simpl; try exact Hm.
  rewrite in_app_iff. intros [H|H]; [exact (Hm H) | exact (Hk a H)].
Qed.

Lemma tidy_try_except {A : Type} (body handler : run A) :
  tidy body -> tidy handler -> tidy (try_except_Exception body handler).
Proof.
  intros [Hb1 Hb2] [Hh1 Hh2]. unfold tidy, try_except_Exception.
  destruct (snd body) as [a| e |] eqn:E;
    [rewrite E; split; [exact Hb1 | discriminate] | | congruence].
  destruct (is_Exception e).
  - simpl. split; [|exact Hh2]. rewrite in_app_iff. tauto.
  - rewrite E. split; [exact Hb1 | discriminate].
Qed.

(** The [finally] block of [main] comes last, once, on every way out of a
    body that leaves the connection alone. *)
Lemma try_finally_close {A : Type} (body : run A) :
  snd body <> Running ->
  try_finally body Driver.close
  = (fst body ++ [CloseSsh; Print MsgSshClosed], snd body).
Proof.
  intros H. unfold try_finally.
  destruct (snd body) as [a| e |]; simpl; [reflexivity | reflexivity |].
  exfalso. apply H. reflexivity.
Qed.

End RunFacts.

Section DriverFacts.

Import Py Shape Remote Driver.
Local Open Scope py_scope.

Lemma tidy_execute (ssh_client : host) (command : string) :
  tidy (execute_remote_command ssh_client command).
Proof.
  unfold execute_remote_command.
  apply tidy_bind; [apply tidy_emit; discriminate|]. intros _.
  destruct (ssh_client command); [apply tidy_ret | apply tidy_raise ..].
Qed.

Lemma tidy_check_log_download_status (ssh_client : host) (dir : string) :
  tidy (check_log_download_status ssh_client dir).
Proof.
  unfold check_log_download_status.
  apply tidy_bind; [apply tidy_execute|]. intros [[st out] err].
  destruct (Str.contains "Downloaded" out);
    (apply tidy_bind; [apply tidy_emit; discriminate|]);
    intros _; apply tidy_ret.
Qed.

Lemma tidy_download_logs (ssh_client : host) (args : Args) :
  tidy (download_logs ssh_client args).
Proof.
  unfold download_logs.
  apply tidy_bind; [apply tidy_execute|]. intros [[st out] err].
  destruct (negb (st =? 0)); [|apply tidy_ret].
  apply tidy_bind; [apply tidy_emit; discriminate|].
  intros _; apply tidy_ret.
Qed.

Lemma tidy_create_symlinks (ssh_client : host) (dir : string) :
  tidy (create_symlinks ssh_client dir).
Proof.
  unfold create_symlinks.
  apply tidy_bind; [apply tidy_execute|]. intros _.
  apply tidy_bind; [apply tidy_execute|]. intros [[st out] err].
  destruct (negb (st =? 0)).
  - apply tidy_bind; [apply tidy_emit; discriminate|].
    intros _; apply tidy_ret.
  - apply tidy_bind; [apply tidy_execute|]. intros _.
    apply tidy_bind; [apply tidy_execute|]. intros _.
    apply tidy_ret.
Qed.

Lemma tidy_time_sleep (secs : Z) (interrupted : bool) :
  tidy (time_sleep secs interrupted).
Proof.
  unfold time_sleep. destruct (secs <? 0); [apply tidy_raise|].
  apply tidy_bind; [apply tidy_emit; discriminate|]. intros _.
  destruct interrupted; [apply tidy_raise | apply tidy_ret].
Qed.

Lemma tidy_setup_elasticsearch_client (w : World) :
  tidy (setup_elasticsearch_client w).
Proof.
  unfold setup_elasticsearch_client.
  apply tidy_bind; [apply tidy_emit; discriminate|]. intros _.
  destruct (elasticsearch w);
    [apply tidy_ret | | | apply tidy_raise];
    (apply tidy_bind; [apply tidy_emit; discriminate|]);
    intros _; apply tidy_raise.
Qed.

Lemma tidy_setup (args : Args) (w : World) : tidy (setup args w).
Proof.
  unfold setup.
  apply tidy_bind; [apply tidy_check_log_download_status|].
  intros logs_downloaded.
  apply tidy_bind.
  { destruct (negb logs_downloaded || force_download args); [|apply tidy_ret].
    apply tidy_bind; [apply tidy_download_logs|]. intros ok.
    destruct (negb ok); [apply tidy_raise | apply tidy_ret]. }
  intros _.
  apply tidy_bind; [apply tidy_create_symlinks|]. intros ok.
  apply tidy_bind.
  { destruct (negb ok); [apply tidy_raise | apply tidy_ret]. }
  intros _.
  apply tidy_bind; [apply tidy_execute|]. intros _.
  apply tidy_bind; [apply tidy_time_sleep|]. intros _.
  apply tidy_setup_elasticsearch_client.
Qed.

Lemma tidy_verdict (args : Args) (w : World) (new_docs : Z) :
  tidy (verdict args w new_docs).
Proof.
  unfold verdict. destruct (new_docs >? 0).
  - apply tidy_bind; [apply tidy_emit; discriminate|]. intros _.
    apply tidy_bind; [|intros _; apply tidy_raise].
    destruct (verbose args); [|apply tidy_ret].
    apply tidy_try_except; [|apply tidy_emit; discriminate].
    apply tidy_bind; [|intros _; apply tidy_ret].
    unfold run_check_elastic_script.
    apply tidy_bind; [apply tidy_execute|].
    intros [[st out] err]. apply tidy_ret.
  - apply tidy_bind; [apply tidy_emit; discriminate|]. intros _.
    apply tidy_raise.
Qed.

(** The monitor leaves the connection alone too; it is the one step that
    can still be going when the inputs are used up. *)
Lemma monitor_keeps_open (args : Args) (w : World) :
  ~ In CloseSsh (fst (monitor args w)).
Proof.
  unfold monitor, bind. simpl.
  destruct (first_query w) as [first|]; simpl.
  - destruct (Monitor.monitor_elasticsearch args first (started w) (events w));
      simpl; intros [H|[]]; discriminate.
  - intros [H|[]]; discriminate.
Qed.

Lemma body_keeps_open (args : Args) (w : World) :
  ~ In CloseSsh
      (fst (setup args w ;; new_docs <- monitor args w ;;
            verdict args w new_docs)).
Proof.
  apply bind_keeps_open; [apply (tidy_setup args w)|]. intros _.
  apply bind_keeps_open; [apply monitor_keeps_open|]. intros n.
  apply (tidy_verdict args w n).
Qed.

(** What [main] does once the setup went through and the monitor returned
    [n]. *)
Lemma main_after_monitor (args : Args) (w : World)
  (first : Monitor.es_reply) (why : Monitor.stop) (n : Z) :
  snd (setup args w) = Normal tt ->
  first_query w = Some first ->
  Monitor.monitor_elasticsearch args first (started w) (events w)
  = Monitor.Returned why n ->
  main_connected args w
  = (fst (setup args w)
     ++ [Watch (Monitor.index_pattern args (today w))]
     ++ fst (verdict args w n)
     ++ [CloseSsh; Print MsgSshClosed],
     snd (verdict args w n)).
Proof.
  intros Hs Hf Hm. unfold main_connected.
  rewrite try_finally_close.
  - rewrite (bind_normal _ _ tt Hs). simpl.
    assert (Hmon : monitor args w
                   = ([Watch (Monitor.index_pattern args (today w))],
                      Normal n)).
    { unfold monitor. rewrite Hf, Hm. reflexivity. }
    rewrite Hmon. unfold bind at 1. simpl.
    rewrite <- !app_assoc. reflexivity.
  - rewrite (bind_normal _ _ tt Hs). simpl.
    assert (Hmon : snd (monitor args w) = Normal n).
    { unfold monitor. rewrite Hf, Hm. reflexivity. }
    rewrite (bind_normal _ _ n Hmon). simpl.
    apply (tidy_verdict args w n).
Qed.

Lemma verdict_outcome (args : Args) (w : World) (n : Z) :
  snd (verdict args w n)
  = if n >? 0 then
      if verbose args then
        match remote w (check_cmd args) with
        | CtrlC => Raise KeyboardInterrupt
        | _ => Raise (SystemExit 0)
        end
      else Raise (SystemExit 0)
    else Raise (SystemExit 1).
Proof.
  unfold verdict. destruct (n >? 0); [|reflexivity].
  destruct (verbose args); [|reflexivity].
  unfold run_check_elastic_script, execute_remote_command,
    try_except_Exception, bind. simpl.
  destruct (remote w (check_cmd args)); reflexivity.
Qed.

Lemma verdict_prints_count (args : Args) (w : World) (n : Z) :
  0 < n -> In (Print (MsgSuccess n)) (fst (verdict args w n)).
Proof.
  intros Hn. unfold verdict.
  destruct (Z.gtb_spec n 0); [|lia].
  rewrite (bind_normal (emit (Print (MsgSuccess n))) _ tt eq_refl).
  simpl. left. reflexivity.
Qed.

End DriverFacts.

(** ** The claims about the driver *)

Section DriverClaims.

Import Py Shape Remote Driver.
Local Open Scope py_scope.

Lemma bind_running {A B : Type} (m : run A) (k : A -> run B) :
  snd (bind m k) = Running ->
  snd m = Running \/ exists a, snd m = Normal a /\ snd (k a) = Running.
Proof.
  unfold bind. destruct (snd m) as [a| e |]; simpl; intros H.
  - right. exists a. split; [reflexivity | exact H].
  - discriminate.
  - left. reflexivity.
Qed.

Lemma monitor_running (args : Args) (w : World) :
  snd (monitor args w) = Running ->
  exists first w',
    first_query w = Some first
    /\ Monitor.monitor_elasticsearch args first (started w) (events w)
       = Monitor.Polling w'.
Proof.
  unfold monitor, bind. simpl.
  destruct (first_query w) as [first|]; simpl; [|discriminate].
  destruct (Monitor.monitor_elasticsearch args first (started w) (events w))
    as [why n| e |w'] eqn:E; simpl; try discriminate.
  intros _. exists first, w'. split; [reflexivity | exact E].
Qed.

(** C2 (amended).  Once the setup went through and the monitor returned a
    count, whether from the stable stop or from the interrupt handler,
    [main] leaves with exit code 0 exactly when that count is positive (and,
    with [--verbose], Ctrl-C does not hit the check script); it prints the
    count then.  A count of zero or less gives exit code 1.  A stable stop
    always returns a positive count. *)
Theorem exit_code_follows_count :
  forall (args : Args) (w : World) (first : Monitor.es_reply)
         (why : Monitor.stop) (n : Z),
    snd (setup args w) = Normal tt ->
    first_query w = Some first ->
    Monitor.monitor_elasticsearch args first (started w) (events w)
    = Monitor.Returned why n ->
    (exit_code (main_connected args w) = Some 0
     <-> 0 < n /\ (verbose args = true -> remote w (check_cmd args) <> CtrlC))
    /\ (n <= 0 -> exit_code (main_connected args w) = Some 1)
    /\ (0 < n -> In (Print (MsgSuccess n)) (fst (main_connected args w)))
    /\ (why = Monitor.Stable -> 0 < n).
Proof.
  intros args w first why n Hs Hf Hm.
  rewrite (main_after_monitor args w first why n Hs Hf Hm).
  unfold exit_code. simpl. rewrite verdict_outcome.
  split; [|split; [|split]].
  - destruct (Z.gtb_spec n 0) as [Hn|Hn].
    + destruct (verbose args).
      * destruct (remote w (check_cmd args)) as [st out err| |] eqn:Hc.
        -- split; [|reflexivity].
           intros _. split; [lia | intros _ H; discriminate H].
        -- split; [discriminate|].
           intros [_ H]. exfalso. apply H; reflexivity.
        -- split; [|reflexivity].
           intros _. split; [lia | intros _ H; discriminate H].
      * split; [|reflexivity].
        intros _. split; [lia | intros H; discriminate H].
    + split; [discriminate | intros [H _]; lia].
  - intros Hn. destruct (Z.gtb_spec n 0) as [Hgt|Hle]; [lia | reflexivity].
  - intros Hn. apply in_or_app. right. right.
    apply in_or_app. left.
    apply verdict_prints_count. exact Hn.
  - intros ->. apply (stable_stop_positive args _ _ n Hm).
Qed.

(** C6.  When the download step runs (the probe's output lacks
    "Downloaded", or [--force-download] is given) and the download command
    ends with a non-zero status, [main] leaves with exit code 1 after the
    probe and the download alone: no link farm, no restart, no connection to
    the search service, no monitoring; the SSH connection is closed. *)
Theorem failed_download_ends_the_run :
  forall (args : Args) (w : World)
         (probe_status : Z) (probe_output probe_error : string)
         (exit_status : Z) (output error : string),
    remote w (probe_cmd (log_dir args))
    = Ran probe_status probe_output probe_error ->
    Str.contains "Downloaded" probe_output = false
    \/ force_download args = true ->
    remote w (download_cmd args) = Ran exit_status output error ->
    exit_status <> 0 ->
    main_connected args w
    = ([Exec (probe_cmd (log_dir args));
        Print (if Str.contains "Downloaded" probe_output
               then MsgAlreadyDownloaded else MsgNotDownloaded);
        Exec (download_cmd args);
        Print (MsgDownloadFailed exit_status);
        CloseSsh;
        Print MsgSshClosed],
       Raise (SystemExit 1)).
Proof.
  intros args w ps pout perr st out err Hprobe Hrun Hdl Hst.
  assert (Hp : check_log_download_status (remote w) (log_dir args)
               = ([Exec (probe_cmd (log_dir args));
                   Print (if Str.contains "Downloaded" pout
                          then MsgAlreadyDownloaded else MsgNotDownloaded)],
                  Normal (Str.contains "Downloaded" pout))).
  { unfold check_log_download_status, execute_remote_command, bind. simpl.
    rewrite Hprobe. simpl.
    destruct (Str.contains "Downloaded" pout); reflexivity. }
  assert (Hd : download_logs (remote w) args
               = ([Exec (download_cmd args); Print (MsgDownloadFailed st)],
                  Normal false)).
  { unfold download_logs, execute_remote_command, bind. simpl.
    rewrite Hdl. simpl.
    destruct (Z.eqb_spec st 0); [contradiction | reflexivity]. }
  assert (Hc : negb (Str.contains "Downloaded" pout) || force_download args
               = true).
  { destruct Hrun as [-> | ->]; [reflexivity | apply orb_true_r]. }
  assert (Hsetup : setup args w
                   = ([Exec (probe_cmd (log_dir args));
                       Print (if Str.contains "Downloaded" pout
                              then MsgAlreadyDownloaded else MsgNotDownloaded);
                       Exec (download_cmd args);
                       Print (MsgDownloadFailed st)],
                      Raise (SystemExit 1))).
  { unfold setup. rewrite Hp.
    unfold bind at 1. cbn [fst snd]. rewrite Hc, Hd.
    reflexivity. }
  unfold main_connected.
  rewrite (bind_raise (setup args w) _ (SystemExit 1))
    by (rewrite Hsetup; reflexivity).
  rewrite try_finally_close by (simpl; discriminate).
  rewrite Hsetup. reflexivity.
Qed.

(** C9.  Once the SSH client exists, every way out of [main] closes the
    connection: the trace of a run that has ended finishes with the close
    (and its message), and nothing closed the connection before.  A run
    has not ended only while the monitor is still polling. *)
Theorem ssh_closed_on_every_exit :
  forall (args : Args) (w : World),
    (exists before,
        fst (main_connected args w) = before ++ [CloseSsh; Print MsgSshClosed]
        /\ ~ In CloseSsh before
        /\ snd (main_connected args w) <> Running)
    \/ (snd (main_connected args w) = Running
        /\ exists first w',
            first_query w = Some first
            /\ Monitor.monitor_elasticsearch args first (started w) (events w)
               = Monitor.Polling w').
Proof.
  intros args w. unfold main_connected.
  set (body := setup args w ;; new_docs <- monitor args w ;;
               verdict args w new_docs).
  destruct (snd body) as [a| e |] eqn:E.
  - left. exists (fst body).
    rewrite try_finally_close by congruence.
    split; [reflexivity|]. split; [apply body_keeps_open|].
    simpl. congruence.
  - left. exists (fst body).
    rewrite try_finally_close by congruence.
    split; [reflexivity|]. split; [apply body_keeps_open|].
    simpl. congruence.
  - right. split.
    + unfold try_finally. rewrite E. reflexivity.
    + unfold body in E. apply bind_running in E.
      destruct E as [E|(_ & _ & E)].
      * exfalso. apply (tidy_setup args w). exact E.
      * apply bind_running in E.
        destruct E as [E|(n & _ & E)].
        -- apply monitor_running. exact E.
        -- exfalso. apply (tidy_verdict args w n). exact E.
Qed.

(** C10.  Ctrl-C in the first iteration, before [current_count] is
    assigned, makes the handler raise [UnboundLocalError]; nothing in
    [main] handles it, so the run ends on that error and not on an exit
    code.  Once the assignment was made the handler returns the count less
    the initial count. *)
Theorem interrupt_before_first_sample :
  forall (args : Args) (first : Monitor.es_reply) (started0 : Z)
         (rest : list Monitor.event),
    Monitor.monitor_elasticsearch args first started0
      (Monitor.InterruptBeforeSample :: rest)
    = Monitor.Raised (UnboundLocalError "current_count")
    /\ (forall now r,
           Monitor.monitor_elasticsearch args first started0
             (Monitor.InterruptAfterSample now r :: rest)
           = Monitor.Returned Monitor.Interrupted
               (Monitor.get_doc_count r - Monitor.get_doc_count first))
    /\ (forall w,
           snd (setup args w) = Normal tt ->
           first_query w = Some first ->
           started w = started0 ->
           events w = Monitor.InterruptBeforeSample :: rest ->
           snd (main_connected args w)
           = Raise (UnboundLocalError "current_count")
           /\ exit_code (main_connected args w) = None).
Proof.
  intros args first started0 rest.
  split; [reflexivity|]. split; [reflexivity|].
  intros w Hs Hf Ht He.
  assert (Hbody : snd (setup args w ;; new_docs <- monitor args w ;;
                       verdict args w new_docs)
                  = Raise (UnboundLocalError "current_count")).
  { rewrite (bind_normal _ _ tt Hs). simpl.
    assert (Hmon : snd (monitor args w)
                   = Raise (UnboundLocalError "current_count")).
    { unfold monitor. rewrite Hf, Ht, He. reflexivity. }
    rewrite (bind_raise _ _ _ Hmon). reflexivity. }
  assert (Hmain : snd (main_connected args w)
                  = Raise (UnboundLocalError "current_count")).
  { unfold main_connected.
    rewrite try_finally_close by (rewrite Hbody; discriminate).
    exact Hbody. }
  split; [exact Hmain|].
  unfold exit_code. rewrite Hmain. reflexivity.
Qed.

End DriverClaims.

(** ** The claims on concrete runs *)

Section Runs.

Import Py Shape Scenario.
Import Monitor.





(** Samples 0, 0, 100, 250, 250, 250 ten seconds apart with a stable time
    of twenty seconds: the stable stop comes at the third 250, with 250 new
    documents. *)
Example growth_run :
  monitor_elasticsearch args0 (docs 0) 0 (samples every_ten growth 5)
  = Returned Stable 250
  /\ exists w,
      monitor_elasticsearch args0 (docs 0) 0 (samples every_ten growth 4)
      = Polling w.
Proof. split; [reflexivity | eexists; reflexivity]. Qed.




(** A static index interrupted after its fourth sample: no new documents. *)
Example static_run_interrupted :
  monitor_elasticsearch args0 (docs 5) 0
    (samples every_ten static 3 ++ [InterruptAfterSample 40 (docs 5)])
  = Returned Interrupted 0.
Proof. reflexivity. Qed.

Example failed_query_run :
  monitor_elasticsearch args0 (docs 0) 0
    ([Sample 10 (docs 100)] ++ Sample 20 EsError
       :: samples from_thirty full 3)
  = Returned Stable 250.
Proof. reflexivity. Qed.

(** C7 as stated fails after a failed query: the window began at 100, the
    query fails, the count comes back as 100; it does not exceed
    [stable_count], and [stable_since] is reset all the same. *)
Lemma reset_without_exceeding_stable_count :
  stable_count (track (start 0 0) [Sample 10 (docs 100); Sample 20 EsError])
  = 100
  /\ stable_since (track (start 0 0) [Sample 10 (docs 100); Sample 20 EsError])
     = 10
  /\ (100 >? stable_count
                (track (start 0 0) [Sample 10 (docs 100); Sample 20 EsError]))
     = false
  /\ stable_since
       (snd (observe
               (track (start 0 0) [Sample 10 (docs 100); Sample 20 EsError])
               30 (get_doc_count (docs 100))))
     = 30.
Proof. repeat split. Qed.

(** C7, on counts that never go down: 0, 100 and then 250. *)
Lemma window_bookkeeping_witness :
  resets (track (start 0 0) [Sample 10 (docs 0); Sample 20 (docs 100)])
    (get_doc_count (docs 250)) = true
  <-> stable_count
        (track (start 0 0) [Sample 10 (docs 0); Sample 20 (docs 100)])
      < get_doc_count (docs 250).
Proof.
  apply (proj2 (proj2 (proj2 (proj2 window_bookkeeping)))
           0 0 [Sample 10 (docs 0); Sample 20 (docs 100)] (docs 250)).
  - reflexivity.
  - vm_compute. discriminate.
Defined.

(** C8, without [--index]. *)
Lemma default_index_pattern_fixed_witness :
  index_pattern args0 "2026.01.15" = "filebeat-*"%string.
Proof.
  apply (proj1 (proj2 default_index_pattern_fixed) args0 "2026.01.15"%string).
  reflexivity.
Defined.

End Runs.

Section DriverRuns.

Import Py Shape Scenario Remote Driver.

Lemma setup_goes_through (events : list Monitor.event) :
  snd (setup args0 (world true 0 args0 events)) = Normal tt.
Proof. reflexivity. Qed.

(** C2 as stated fails on an interrupted run: 100 documents arrived, Ctrl-C
    ends the monitoring, and [main] reports success with exit code 0. *)
Lemma interrupted_run_exits_zero :
  Monitor.monitor_elasticsearch args0 (docs 0) 0
    [Monitor.Sample 10 (docs 100); Monitor.InterruptAfterSample 20 (docs 100)]
  = Monitor.Returned Monitor.Interrupted 100
  /\ exit_code
       (main args0
          (world true 0 args0
             [Monitor.Sample 10 (docs 100);
              Monitor.InterruptAfterSample 20 (docs 100)]))
     = Some 0
  /\ In (Print (MsgSuccess 100))
       (fst (main args0
               (world true 0 args0
                  [Monitor.Sample 10 (docs 100);
                   Monitor.InterruptAfterSample 20 (docs 100)]))).
Proof.
  split; [reflexivity|]. split; [reflexivity|].
  vm_compute. tauto.
Qed.

(** C2, on the growing run. *)
Lemma exit_code_follows_count_witness :
  exit_code
    (main_connected args0
       (world true 0 args0 (Monitor.samples every_ten growth 5)))
  = Some 0
  <-> 0 < 250
      /\ (verbose args0 = true ->
          remote (world true 0 args0 (Monitor.samples every_ten growth 5))
            (check_cmd args0) <> CtrlC).
Proof.
  apply (exit_code_follows_count args0
           (world true 0 args0 (Monitor.samples every_ten growth 5))
           (docs 0) Monitor.Stable 250); reflexivity.
Defined.

(** C3 fails on the code.  Without the marker file the shell prints
    "Not Downloaded"; the test ["Downloaded" in output] holds of that line
    too, so the probe answers [True] and the download is skipped. *)
Lemma missing_marker_reads_as_downloaded :
  Str.contains "Downloaded" ("Not Downloaded" ++ Str.nl) = true
  /\ snd (check_log_download_status (remote_host false 0 args0) (log_dir args0))
     = Normal true
  /\ no_download args0
       (fst (main_connected args0
               (world false 0 args0 (Monitor.samples every_ten growth 5))))
     = true
  /\ no_download forced
       (fst (main_connected forced
               (world false 0 forced (Monitor.samples every_ten growth 5))))
     = false.
Proof. repeat split. Qed.

(** C6, with [--force-download] and a download that ends with status 1. *)
Lemma failed_download_ends_the_run_witness :
  main_connected forced (world true 1 forced [])
  = ([Exec (probe_cmd (log_dir forced));
      Print (if Str.contains "Downloaded" ("Downloaded" ++ Str.nl)
             then MsgAlreadyDownloaded else MsgNotDownloaded);
      Exec (download_cmd forced);
      Print (MsgDownloadFailed 1);
      CloseSsh;
      Print MsgSshClosed],
     Raise (SystemExit 1)).
Proof.
  apply (failed_download_ends_the_run forced (world true 1 forced [])
           0 ("Downloaded" ++ Str.nl) "" 1 "" "").
  - reflexivity.
  - right. reflexivity.
  - reflexivity.
  - discriminate.
Defined.

(** C10, on a run interrupted as the first iteration begins. *)
Lemma interrupt_before_first_sample_witness :
  snd (main_connected args0
         (world true 0 args0 [Monitor.InterruptBeforeSample]))
  = Raise (UnboundLocalError "current_count")
  /\ exit_code (main_connected args0
                  (world true 0 args0 [Monitor.InterruptBeforeSample]))
     = None.
Proof.
  apply (proj2 (proj2 (interrupt_before_first_sample args0 (docs 0) 0 []))
           (world true 0 args0 [Monitor.InterruptBeforeSample]));
    reflexivity.
Defined.

(** The ways out of [main] named by C9, each ending on the close. *)
Example exits_close_the_connection :
  (* the connection to the search service fails *)
  main_connected args0
    {| ssh_connects := true;
       remote := remote_host true 0 args0;
       grace_sleep_interrupted := false;
       elasticsearch := PingFailed;
       today := "2026.01.15";
       first_query := Some (docs 0);
       started := 0;
       events := [] |}
  = (fst (setup args0 (world true 0 args0 []))
     ++ [Print MsgEsUnreachable; CloseSsh; Print MsgSshClosed],
     Raise (SystemExit 1))
  (* Ctrl-C during the grace delay *)
  /\ snd (main_connected args0
            {| ssh_connects := true;
               remote := remote_host true 0 args0;
               grace_sleep_interrupted := true;
               elasticsearch := Connected;
               today := "2026.01.15";
               first_query := Some (docs 0);
               started := 0;
               events := [] |})
     = Raise KeyboardInterrupt
  (* the transport breaks under every command *)
  /\ main_connected args0
       {| ssh_connects := true;
          remote := fun _ => Broken;
          grace_sleep_interrupted := false;
          elasticsearch := Connected;
          today := "2026.01.15";
          first_query := Some (docs 0);
          started := 0;
          events := [] |}
     = ([Exec (probe_cmd (log_dir args0)); CloseSsh; Print MsgSshClosed],
        Raise TransportError).
Proof. repeat split. Qed.

End DriverRuns.

(** * Further properties *)

(** ** The monitor *)

Section MonitorExtras.

Import Monitor Shape Terms.

Lemma sum_from_total (indices : list (string * N)) (acc : Z) :
  fold_left (fun total_docs idx => total_docs + Z.of_N (snd idx)) indices acc
  = acc + total indices.
Proof.
  revert acc.
  induction indices as [|idx indices IH]; intros acc; simpl; [lia|].
  rewrite IH. lia.
Qed.

Lemma total_nonneg (indices : list (string * N)) : 0 <= total indices.
Proof.
  induction indices as [|idx indices IH]; simpl; lia.
Qed.

Lemma total_zero (indices : list (string * N)) :
  total indices = 0 <-> Forall (fun idx => snd idx = 0%N) indices.
Proof.
  induction indices as [|idx indices IH]; simpl.
  - split; [constructor | reflexivity].
  - pose proof (total_nonneg indices). split.
    + intros H0. constructor; [lia | apply IH; lia].
    + intros Hall. inversion Hall as [|? ? Hidx Hrest]; subst.
      apply IH in Hrest. lia.
Qed.

Lemma total_permutation (l l' : list (string * N)) :
  Permutation l l' -> total l = total l'.
Proof.
  intros Hp. induction Hp; simpl; lia.
Qed.

Lemma get_doc_count_total (indices : list (string * N)) :
  get_doc_count (EsIndices indices) = total indices.
Proof.
  destruct indices as [|idx indices]; [reflexivity|].
  unfold get_doc_count. rewrite sum_from_total. lia.
Qed.

(** X1.  The count of a stats reply is the sum of the documents of its
    indices, whatever their order; it is zero exactly for a failed query or
    for indices that are all empty (none at all included). *)
Theorem doc_count_sums_indices :
  (forall indices, get_doc_count (EsIndices indices) = total indices)
  /\ (forall l l',
         Permutation l l' ->
         get_doc_count (EsIndices l) = get_doc_count (EsIndices l'))
  /\ (forall r,
         get_doc_count r = 0
         <-> r = EsError
             \/ exists indices,
                 r = EsIndices indices
                 /\ Forall (fun idx => snd idx = 0%N) indices).
Proof.
  split; [exact get_doc_count_total|]. split.
  - intros l l' Hp. rewrite !get_doc_count_total.
    apply total_permutation. exact Hp.
  - intros [|indices].
    + split; [intros _; left; reflexivity | reflexivity].
    + rewrite get_doc_count_total, total_zero. split.
      * intros H. right. exists indices. split; [reflexivity | exact H].
      * intros [H|(l & Hl & H)]; [discriminate|].
        inversion Hl; subst. exact H.
Qed.

Lemma capped_observe (w : Window) (now c : Z) :
  capped w -> capped (snd (observe w now c)).
Proof.
  unfold capped. intros Hw.
  rewrite observe_last_count, observe_initial_count. intros Hc.
  destruct (resets w c) eqn:Hr.
  - destruct (observe_resets w now c Hr) as [_ ->]. lia.
  - destruct (observe_keeps w now c Hr) as [_ ->].
    assert (Hle : c <= last_count w).
    { destruct (Z_lt_le_dec (last_count w) c) as [Hlt|Hle]; [|exact Hle].
      assert (resets w c = true) by (apply resets_iff; lia).
      congruence. }
    lia.
Qed.

Lemma capped_track (w : Window) (l : list event) :
  capped w -> capped (track w l).
Proof.
  revert w.
  induction l as [|e l IH]; intros w Hw; simpl; [exact Hw|].
  destruct e; try exact Hw.
  apply IH. apply capped_observe. exact Hw.
Qed.

Lemma capped_start (initial now : Z) : capped (start initial now).
Proof. unfold capped. simpl. lia. Qed.

Lemma track_last_sample (w : Window) (l : list event) (now : Z) (r : es_reply) :
  forallb is_sample l = true ->
  track w (l ++ [Sample now r])
  = snd (observe (track w l) now (get_doc_count r)).
Proof.
  intros Hl. rewrite track_app by exact Hl. reflexivity.
Qed.

(** X2.  With a positive stable time the monitor stops as stable only on a
    sample that repeats the one before it: the previous iteration sampled
    the same count, that count began the current stability window, and the
    stable time has passed since the window began. *)
Theorem stable_stop_repeats_previous_sample :
  forall (args : Args) (first : es_reply) (started : Z)
         (before : list event) (now : Z) (r : es_reply) (d : Z) (w : Window),
    0 < stable_time args ->
    monitor_elasticsearch args first started before = Polling w ->
    monitor_elasticsearch args first started (before ++ [Sample now r])
    = Returned Stable d ->
    (exists before' now' r',
        before = before' ++ [Sample now' r']
        /\ get_doc_count r' = get_doc_count r)
    /\ stable_count w = get_doc_count r
    /\ stable_time args <= now - stable_since w.
Proof.
  intros args first started before now r d w Hpos Hp Hstop.
  unfold monitor_elasticsearch in *.
  rewrite loop_app, Hp in Hstop. simpl in Hstop.
  set (c := get_doc_count r) in *.
  destruct (reached_stable args (snd (observe w now c)) now c) eqn:Hr;
    [|destruct (check_interval args <? 0); discriminate].
  apply reached_stable_iff in Hr.
  rewrite observe_initial_count in Hr. destruct Hr as (Hgt & Hsc & Hdwell).
  assert (Hno : resets w c = false).
  { destruct (resets w c) eqn:E; [|reflexivity].
    destruct (observe_resets w now c E) as [Hs _]. lia. }
  destruct (observe_keeps w now c Hno) as [Hs1 Hs2].
  rewrite Hs1 in Hdwell. rewrite Hs2 in Hsc.
  assert (Hle : c <= last_count w).
  { destruct (Z_lt_le_dec (last_count w) c) as [Hlt|Hle]; [|exact Hle].
    assert (resets w c = true) by (apply resets_iff; lia).
    congruence. }
  destruct (loop_polling args _ _ _ Hp) as [Hw Hall].
  assert (Hcap : capped w).
  { rewrite Hw. apply capped_track. apply capped_start. }
  assert (Hi : initial_count w = get_doc_count first).
  { apply (loop_polling_initial_count args _ _ _ Hp). }
  assert (Hlast : last_count w = c) by (unfold capped in Hcap; lia).
  split; [|split; [congruence | exact Hdwell]].
  destruct before as [|e0 before0] eqn:Hb.
  - exfalso. simpl in Hw. subst w. simpl in Hlast, Hi, Hgt. lia.
  - destruct (@exists_last _ (e0 :: before0)) as (before' & e & He);
      [discriminate|].
    rewrite He in Hall, Hw.
    rewrite forallb_app in Hall. apply andb_true_iff in Hall.
    destruct Hall as [Hall' Hlast_is].
    destruct e as [now' r'| |now' r']; simpl in Hlast_is; try discriminate.
    exists before', now', r'. split; [exact He|].
    rewrite track_last_sample in Hw by exact Hall'.
    rewrite Hw, observe_last_count in Hlast. exact Hlast.
Qed.

(** X3.  With a stable time of zero or less there is no waiting: the
    first sample that is above the initial count and above the sample
    before it ends the monitoring at once, as a stable stop. *)
Theorem no_dwell_stops_at_first_growth :
  forall (args : Args) (first : es_reply) (started : Z)
         (before : list event) (now : Z) (r : es_reply)
         (rest : list event) (w : Window),
    stable_time args <= 0 ->
    monitor_elasticsearch args first started before = Polling w ->
    last_count w < get_doc_count r ->
    get_doc_count first < get_doc_count r ->
    monitor_elasticsearch args first started (before ++ Sample now r :: rest)
    = Returned Stable (get_doc_count r - get_doc_count first).
Proof.
  intros args first started before now r rest w Hst Hp Hlast Hfirst.
  unfold monitor_elasticsearch in *.
  pose proof (loop_polling_initial_count args _ _ _ Hp) as Hi. simpl in Hi.
  rewrite loop_app, Hp. simpl.
  set (c := get_doc_count r) in *.
  assert (Hr : resets w c = true) by (apply resets_iff; lia).
  destruct (observe_resets w now c Hr) as [Hs1 Hs2].
  assert (Hreach : reached_stable args (snd (observe w now c)) now c = true).
  { apply reached_stable_iff.
    rewrite observe_initial_count, Hs1, Hs2. lia. }
  rewrite Hreach, observe_initial_count, Hi. reflexivity.
Qed.

Lemma track_max_fold (w : Window) (l : list event) :
  forallb is_sample l = true ->
  max_count (track w l) = fold_left Z.max (sampled_counts l) (max_count w).
Proof.
  revert w.
  induction l as [|e l IH]; intros w Hall; simpl; [reflexivity|].
  destruct e as [now r| |now r]; simpl in Hall; try discriminate.
  simpl. rewrite IH by exact Hall. rewrite observe_max_count. reflexivity.
Qed.

(** X4.  After any number of undisturbed iterations [max_count] is the
    largest of the initial count and the counts sampled so far. *)
Theorem max_count_is_running_maximum :
  forall (initial started : Z) (events : list event),
    forallb is_sample events = true ->
    max_count (track (start initial started) events)
    = fold_left Z.max (sampled_counts events) initial
    /\ initial <= max_count (track (start initial started) events)
    /\ Forall (fun c => c <= max_count (track (start initial started) events))
         (sampled_counts events).
Proof.
  intros initial started events Hall.
  rewrite (track_max_fold _ _ Hall). simpl.
  assert (Hge : forall l a, a <= fold_left Z.max l a).
  { induction l as [|x l IH]; intros a; simpl; [lia|].
    specialize (IH (Z.max a x)). lia. }
  assert (Hall' : forall l a, Forall (fun c => c <= fold_left Z.max l a) l).
  { induction l as [|x l IH]; intros a; simpl; constructor.
    - specialize (Hge l (Z.max a x)). lia.
    - apply IH. }
  split; [reflexivity|]. split; [apply Hge | apply Hall'].
Qed.

(** X5.  Ctrl-C at the start of an iteration, once an earlier iteration has
    completed, makes the monitor return the count of that earlier iteration
    less the initial count. *)
Theorem interrupt_reports_last_sample :
  forall (args : Args) (first : es_reply) (started : Z)
         (before : list event) (now : Z) (r : es_reply)
         (rest : list event) (w : Window),
    monitor_elasticsearch args first started (before ++ [Sample now r])
    = Polling w ->
    monitor_elasticsearch args first started
      (before ++ Sample now r :: InterruptBeforeSample :: rest)
    = Returned Interrupted (get_doc_count r - get_doc_count first).
Proof.
  intros args first started before now r rest w Hp.
  unfold monitor_elasticsearch in *.
  replace (before ++ Sample now r :: InterruptBeforeSample :: rest)
    with ((before ++ [Sample now r]) ++ InterruptBeforeSample :: rest)
    by (rewrite <- app_assoc; reflexivity).
  rewrite loop_app, Hp. simpl.
  destruct (loop_polling args _ _ _ Hp) as [Hw Hall].
  rewrite forallb_app in Hall. apply andb_true_iff in Hall.
  destruct Hall as [Hall _].
  rewrite track_last_sample in Hw by exact Hall.
  rewrite Hw, observe_current_count, observe_initial_count,
    track_initial_count.
  reflexivity.
Qed.

End MonitorExtras.

(** ** The driver *)

Section DriverExtras.

Import Py Shape Terms Remote Driver.
Local Open Scope py_scope.

Lemma snd_bind {A B : Type} (m : run A) (k : A -> run B) :
  snd (bind m k)
  = match snd m with
    | Normal a => snd (k a)
    | Raise e => Raise e
    | Running => Running
    end.
Proof. unfold bind. destruct (snd m); reflexivity. Qed.

Lemma snd_execute (h : host) (command : string) :
  snd (execute_remote_command h command)
  = match h command with
    | Ran exit_status output error => Normal (exit_status, output, error)
    | CtrlC => Raise KeyboardInterrupt
    | Broken => Raise TransportError
    end.
Proof.
  unfold execute_remote_command. rewrite snd_bind. simpl.
  destruct (h command); reflexivity.
Qed.

Lemma snd_check_log_download_status (h : host) (dir : string) :
  snd (check_log_download_status h dir)
  = match h (probe_cmd dir) with
    | Ran _ output _ => Normal (Str.contains "Downloaded" output)
    | CtrlC => Raise KeyboardInterrupt
    | Broken => Raise TransportError
    end.
Proof.
  unfold check_log_download_status. rewrite snd_bind, snd_execute.
  destruct (h (probe_cmd dir)) as [st out err| |]; try reflexivity.
  destruct (Str.contains "Downloaded" out); reflexivity.
Qed.

Lemma snd_download_logs (h : host) (args : Args) :
  snd (download_logs h args)
  = match h (download_cmd args) with
    | Ran exit_status _ _ => Normal (exit_status =? 0)
    | CtrlC => Raise KeyboardInterrupt
    | Broken => Raise TransportError
    end.
Proof.
  unfold download_logs. rewrite snd_bind, snd_execute.
  destruct (h (download_cmd args)) as [st out err| |]; try reflexivity.
  destruct (st =? 0); reflexivity.
Qed.

Lemma snd_create_symlinks (h : host) (dir : string) :
  snd (create_symlinks h dir)
  = match h (mkdir_cmd dir) with
    | Ran _ _ _ =>
        match h (symlink_cmd dir) with
        | Ran exit_status _ _ =>
            if exit_status =? 0 then
              match h (count_cmd dir) with
              | Ran _ _ _ =>
                  match h (chown_cmd dir) with
                  | Ran _ _ _ => Normal true
                  | CtrlC => Raise KeyboardInterrupt
                  | Broken => Raise TransportError
                  end
              | CtrlC => Raise KeyboardInterrupt
              | Broken => Raise TransportError
              end
            else Normal false
        | CtrlC => Raise KeyboardInterrupt
        | Broken => Raise TransportError
        end
    | CtrlC => Raise KeyboardInterrupt
    | Broken => Raise TransportError
    end.
Proof.
  unfold create_symlinks. rewrite snd_bind, snd_execute.
  destruct (h (mkdir_cmd dir)) as [st0 out0 err0| |]; try reflexivity.
  rewrite snd_bind, snd_execute.
  destruct (h (symlink_cmd dir)) as [st out err| |]; try reflexivity.
  destruct (st =? 0); [|reflexivity]. simpl negb. cbv iota.
  rewrite snd_bind, snd_execute.
  destruct (h (count_cmd dir)) as [st1 out1 err1| |]; try reflexivity.
  rewrite snd_bind, snd_execute.
  destruct (h (chown_cmd dir)) as [st2 out2 err2| |]; reflexivity.
Qed.

Lemma snd_time_sleep_ten (interrupted : bool) :
  snd (time_sleep 10 interrupted)
  = if interrupted then Raise KeyboardInterrupt else Normal tt.
Proof. destruct interrupted; reflexivity. Qed.

Lemma snd_setup_elasticsearch_client (w : World) :
  snd (setup_elasticsearch_client w)
  = match elasticsearch w with
    | Connected => Normal tt
    | PingFailed | ConnectRaised => Raise (SystemExit 1)
    | ConnectInterrupted => Raise KeyboardInterrupt
    end.
Proof.
  unfold setup_elasticsearch_client. rewrite snd_bind. simpl.
  destruct (elasticsearch w); reflexivity.
Qed.

(** How the setup steps end, read off the replies. *)
Lemma snd_setup (args : Args) (w : World) :
  snd (setup args w)
  = match remote w (probe_cmd (log_dir args)) with
    | Ran _ output _ =>
        match
          (if negb (Str.contains "Downloaded" output) || force_download args
           then
             match remote w (download_cmd args) with
             | Ran exit_status _ _ =>
                 if exit_status =? 0 then Normal tt else Raise (SystemExit 1)
             | CtrlC => Raise KeyboardInterrupt
             | Broken => Raise TransportError
             end
           else Normal tt)
        with
        | Normal _ =>
            match snd (create_symlinks (remote w) (log_dir args)) with
            | Normal ok =>
                if ok then
                  match remote w restart_cmd with
                  | Ran _ _ _ =>
                      if grace_sleep_interrupted w
                      then Raise KeyboardInterrupt
                      else snd (setup_elasticsearch_client w)
                  | CtrlC => Raise KeyboardInterrupt
                  | Broken => Raise TransportError
                  end
                else Raise (SystemExit 1)
            | Raise e => Raise e
            | Running => Running
            end
        | Raise e => Raise e
        | Running => Running
        end
    | CtrlC => Raise KeyboardInterrupt
    | Broken => Raise TransportError
    end.
Proof.
  unfold setup.
  rewrite snd_bind, snd_check_log_download_status.
  destruct (remote w (probe_cmd (log_dir args))) as [ps pout perr| |];
    try reflexivity.
  rewrite snd_bind.
  destruct (negb (Str.contains "Downloaded" pout) || force_download args).
  - rewrite snd_bind, snd_download_logs.
    destruct (remote w (download_cmd args)) as [st out err| |];
      try reflexivity.
    destruct (st =? 0); [|reflexivity]. simpl negb. cbv iota.
    change (snd (@ret unit tt)) with (@Normal unit tt). cbv iota.
    rewrite snd_bind.
    destruct (snd (create_symlinks (remote w) (log_dir args))) as [ok| e |];
      try reflexivity.
    rewrite snd_bind. destruct ok; [|reflexivity]. simpl negb. cbv iota.
    change (snd (@ret unit tt)) with (@Normal unit tt). cbv iota.
    rewrite snd_bind, snd_execute.
    destruct (remote w restart_cmd) as [rs rout rerr| |]; try reflexivity.
    rewrite snd_bind, snd_time_sleep_ten.
    destruct (grace_sleep_interrupted w); reflexivity.
  - change (snd (@ret unit tt)) with (@Normal unit tt). cbv iota.
    rewrite snd_bind.
    destruct (snd (create_symlinks (remote w) (log_dir args))) as [ok| e |];
      try reflexivity.
    rewrite snd_bind. destruct ok; [|reflexivity]. simpl negb. cbv iota.
    change (snd (@ret unit tt)) with (@Normal unit tt). cbv iota.
    rewrite snd_bind, snd_execute.
    destruct (remote w restart_cmd) as [rs rout rerr| |]; try reflexivity.
    rewrite snd_bind, snd_time_sleep_ten.
    destruct (grace_sleep_interrupted w); reflexivity.
Qed.

End DriverExtras.

Section DriverOutcomes.

Import Py Shape Terms Remote Driver.
Local Open Scope py_scope.

(** X6.  The setup steps go through exactly when: the probe runs; the
    download, if it is due, ends with status 0; the commands that make the
    directory, count the links, change their owner and restart the agent
    run, with whatever exit status; the command that makes the links ends
    with status 0; Ctrl-C does not hit the grace delay; and the search
    service answers the ping. *)
Theorem setup_goes_through_iff :
  forall (args : Args) (w : World),
    snd (setup args w) = Normal tt <-> setup_ok args w = true.
Proof.
  intros args w.
  rewrite snd_setup, snd_create_symlinks, snd_setup_elasticsearch_client.
  unfold setup_ok, ran, succeeded, output_of.
  generalize (remote w (probe_cmd (log_dir args))).
  generalize (remote w (download_cmd args)).
  generalize (remote w (mkdir_cmd (log_dir args))).
  generalize (remote w (symlink_cmd (log_dir args))).
  generalize (remote w (count_cmd (log_dir args))).
  generalize (remote w (chown_cmd (log_dir args))).
  generalize (remote w restart_cmd).
  generalize (grace_sleep_interrupted w).
  generalize (elasticsearch w).
  intros es slept restart chown count symlink mkdir download probe.
  destruct probe as [ps pout perr| |]; simpl;
    try (split; intros Hx; discriminate Hx).
  assert (Hrest :
    forall before : outcome unit,
      (before = Normal tt \/ before = Raise (SystemExit 1)
       \/ before = Raise KeyboardInterrupt \/ before = Raise TransportError) ->
      forall ok : bool, (before = Normal tt <-> ok = true) ->
      match before with
      | Normal _ =>
          match
            match mkdir with
            | Ran _ _ _ =>
                match symlink with
                | Ran exit_status _ _ =>
                    if exit_status =? 0
                    then match count with
                         | Ran _ _ _ =>
                             match chown with
                             | Ran _ _ _ => Normal true
                             | CtrlC => Raise KeyboardInterrupt
                             | Broken => Raise TransportError
                             end
                         | CtrlC => Raise KeyboardInterrupt
                         | Broken => Raise TransportError
                         end
                    else Normal false
                | CtrlC => Raise KeyboardInterrupt
                | Broken => Raise TransportError
                end
            | CtrlC => Raise KeyboardInterrupt
            | Broken => Raise TransportError
            end
          with
          | Normal ok0 =>
              if ok0
              then match restart with
                   | Ran _ _ _ =>
                       if slept
                       then Raise KeyboardInterrupt
                       else match es with
                            | Connected => Normal tt
                            | PingFailed | ConnectRaised =>
                                Raise (SystemExit 1)
                            | ConnectInterrupted => Raise KeyboardInterrupt
                            end
                   | CtrlC => Raise KeyboardInterrupt
                   | Broken => Raise TransportError
                   end
              else Raise (SystemExit 1)
          | Raise e => Raise e
          | Running => Running
          end
      | Raise e => Raise e
      | Running => Running
      end = Normal tt
      <->
      ok
      && match mkdir with Ran _ _ _ => true | _ => false end
      && match symlink with Ran st _ _ => st =? 0 | _ => false end
      && match count with Ran _ _ _ => true | _ => false end
      && match chown with Ran _ _ _ => true | _ => false end
      && match restart with Ran _ _ _ => true | _ => false end
      && negb slept
      && match es with Connected => true | _ => false end
      = true).
  { intros before Hcases ok Hok.
    destruct ok.
    - assert (Hb : before = Normal tt) by (apply Hok; reflexivity).
      rewrite Hb. simpl.
      destruct mkdir as [ms mout merr| |]; simpl;
        try (split; intros Hx; discriminate Hx).
      destruct symlink as [ss sout serr| |]; simpl;
        try (split; intros Hx; discriminate Hx).
      destruct (ss =? 0); simpl;
        try (split; intros Hx; discriminate Hx).
      destruct count as [cs cout cerr| |]; simpl;
        try (split; intros Hx; discriminate Hx).
      destruct chown as [os oout oerr| |]; simpl;
        try (split; intros Hx; discriminate Hx).
      destruct restart as [rs rout rerr| |]; simpl;
        try (split; intros Hx; discriminate Hx).
      destruct slept; simpl;
        try (split; intros Hx; discriminate Hx).
      destruct es; simpl;
        try (split; intros Hx; discriminate Hx).
      split; reflexivity.
    - simpl.
      destruct Hcases as [Hb|[Hb|[Hb|Hb]]]; rewrite Hb in *.
      + destruct Hok as [Hok _]. discriminate (Hok eq_refl).
      + split; intros Hx; discriminate Hx.
      + split; intros Hx; discriminate Hx.
      + split; intros Hx; discriminate Hx. }
  destruct (negb (Str.contains "Downloaded" pout) || force_download args).
  - apply Hrest.
    + destruct download as [st out err| |]; [|tauto|tauto].
      destruct (st =? 0); tauto.
    + destruct download as [st out err| |];
        try (split; intros Hx; discriminate Hx).
      destruct (st =? 0); split; intros Hx;
        try reflexivity; discriminate Hx.
  - apply (Hrest (Normal tt)); [tauto|]. split; reflexivity.
Qed.

Lemma loop_raises (args : Args) (w : Monitor.Window)
  (l : list Monitor.event) (e : exn) :
  Monitor.loop args w l = Monitor.Raised e ->
  e = ValueError \/ e = UnboundLocalError "current_count".
Proof.
  revert w.
  induction l as [|ev l IH]; intros w H; simpl in H; [discriminate|].
  destruct ev as [now r| |now r].
  - destruct (Monitor.reached_stable args _ now (Monitor.get_doc_count r));
      [discriminate|].
    destruct (check_interval args <? 0).
    + inversion H. left. reflexivity.
    + apply (IH _ H).
  - destruct (Monitor.current_count w); [discriminate|].
    inversion H. right. reflexivity.
  - discriminate.
Qed.

Lemma setup_exits_with_one (args : Args) (w : World) :
  exits_with_one (setup args w).
Proof.
  unfold exits_with_one. intros code.
  rewrite snd_setup, snd_create_symlinks, snd_setup_elasticsearch_client.
  destruct (remote w (probe_cmd (log_dir args))) as [ps pout perr| |];
    try discriminate.
  assert (Hrest :
    forall tail : outcome unit,
      (tail = Raise (SystemExit code) -> code = 1) ->
      forall before : outcome unit,
        (before = Raise (SystemExit code) -> code = 1) ->
        match before with
        | Normal _ => tail
        | Raise e => Raise e
        | Running => Running
        end = Raise (SystemExit code) -> code = 1).
  { intros tail Ht before Hb.
    destruct before as [a| e |]; [exact Ht | exact Hb | discriminate]. }
  apply Hrest.
  - destruct (remote w (mkdir_cmd (log_dir args))) as [ms mout merr| |];
      try discriminate.
    destruct (remote w (symlink_cmd (log_dir args))) as [ss sout serr| |];
      try discriminate.
    destruct (ss =? 0); [|intros H; inversion H; reflexivity].
    destruct (remote w (count_cmd (log_dir args))) as [cs cout cerr| |];
      try discriminate.
    destruct (remote w (chown_cmd (log_dir args))) as [os oout oerr| |];
      try discriminate.
    destruct (remote w restart_cmd) as [rs rout rerr| |]; try discriminate.
    destruct (grace_sleep_interrupted w); [discriminate|].
    destruct (elasticsearch w); try discriminate;
      intros H; inversion H; reflexivity.
  - destruct (negb (Str.contains "Downloaded" pout) || force_download args);
      [|discriminate].
    destruct (remote w (download_cmd args)) as [st out err| |];
      try discriminate.
    destruct (st =? 0); [discriminate|].
    intros H; inversion H; reflexivity.
Qed.

Lemma exit_code_main_connected (args : Args) (w : World) :
  exit_code (main_connected args w)
  = exit_code (setup args w ;; new_docs <- monitor args w ;;
               verdict args w new_docs).
Proof.
  unfold main_connected, exit_code, try_finally.
  destruct (snd (setup args w ;; new_docs <- monitor args w ;;
                 verdict args w new_docs)); reflexivity.
Qed.

(** After [parse_args]: exit codes 0 and 1 only, 0 only with new
    documents. *)
Lemma parsed_exit_codes :
  forall (args : Args) (w : World) (code : Z),
    exit_code (main args w) = Some code ->
    (code = 0 \/ code = 1)
    /\ (code = 0 ->
        ssh_connects w = true
        /\ snd (setup args w) = Normal tt
        /\ exists first why n,
            first_query w = Some first
            /\ Monitor.monitor_elasticsearch args first (started w) (events w)
               = Monitor.Returned why n
            /\ 0 < n).
Proof.
  intros args w code. unfold main.
  destruct (ssh_connects w).
  2:{ unfold exit_code. simpl. intros H. inversion H.
      split; [right; reflexivity | discriminate]. }
  rewrite exit_code_main_connected. unfold exit_code.
  rewrite snd_bind.
  destruct (snd (setup args w)) as [[]| e |] eqn:Hs.
  - rewrite snd_bind.
    assert (Hmon : snd (monitor args w)
                   = match first_query w with
                     | None => Raise KeyboardInterrupt
                     | Some first =>
                         match Monitor.monitor_elasticsearch args first
                                 (started w) (events w) with
                         | Monitor.Returned _ n => Normal n
                         | Monitor.Raised e => Raise e
                         | Monitor.Polling _ => Running
                         end
                     end).
    { unfold monitor. rewrite snd_bind. simpl.
      destruct (first_query w) as [first|]; [|reflexivity].
      destruct (Monitor.monitor_elasticsearch args first (started w)
                  (events w)); reflexivity. }
    rewrite Hmon.
    destruct (first_query w) as [first|]; [|discriminate].
    destruct (Monitor.monitor_elasticsearch args first (started w) (events w))
      as [why n| e |w'] eqn:Hm.
    + rewrite verdict_outcome.
      destruct (Z.gtb_spec n 0) as [Hn|Hn].
      * intros H.
        assert (Hc : code = 0).
        { destruct (verbose args); [|inversion H; reflexivity].
          destruct (remote w (check_cmd args)); inversion H; reflexivity. }
        split; [left; exact Hc|]. intros _.
        split; [reflexivity|]. split; [reflexivity|].
        exists first, why, n. repeat split; [exact Hm | lia].
      * intros H. inversion H. split; [right; reflexivity | discriminate].
    + apply loop_raises in Hm. destruct Hm as [-> | ->]; discriminate.
    + discriminate.
  - intros H.
    assert (Hc : code = 1).
    { destruct e; try discriminate. inversion H; subst.
      apply (setup_exits_with_one args w _ Hs). }
    split; [right; exact Hc | lia].
  - discriminate.
Qed.

End DriverOutcomes.

(** ** The check script *)

Section CheckElasticFacts.

Import Py CheckElastic.

Lemma check_data_exists_found (index_pattern : option string) (today : string)
  (r : round) :
  snd (check_data_exists index_pattern today (stats r) (search r))
  = has_data r.
Proof.
  unfold check_data_exists, has_data.
  destruct (stats r) as [|[|idx indices]]; try reflexivity.
  change (fold_left _ (idx :: indices) 0)
    with (Monitor.get_doc_count (Monitor.EsIndices (idx :: indices))).
  rewrite Z.gtb_ltb.
  destruct (0 <? Monitor.get_doc_count (Monitor.EsIndices (idx :: indices)));
    [|reflexivity].
  destruct (search r); reflexivity.
Qed.

(** X8.  [check_data_exists] answers [True] exactly when the count that
    [get_doc_count] of the monitor reads off the same stats reply is
    positive and the search for a sample document did not fail; the search
    is only sent when that count is positive. *)
Theorem check_data_exists_iff :
  forall (index_pattern : option string) (today : string)
         (stats : Monitor.es_reply) (search : search_reply),
    (snd (check_data_exists index_pattern today stats search) = true
     <-> 0 < Monitor.get_doc_count stats
         /\ exists hits, search = SearchHits hits)
    /\ (let pattern := match index_pattern with
                       | None => get_today_index today
                       | Some p => p
                       end in
        fst (check_data_exists index_pattern today stats search)
        = if 0 <? Monitor.get_doc_count stats
          then [Stats pattern; Search pattern]
          else [Stats pattern]).
Proof.
  intros index_pattern today stats search. split.
  - pose proof (check_data_exists_found index_pattern today
                  {| at_test := 0; stats := stats; search := search;
                     at_remaining := 0 |}) as H.
    simpl in H. rewrite H. unfold has_data. simpl.
    rewrite andb_true_iff, Z.ltb_lt.
    destruct search as [|hits]; split.
    + intros [_ Hx]. discriminate Hx.
    + intros [_ [hits Hx]]. discriminate Hx.
    + intros [Hc _]. split; [exact Hc | exists hits; reflexivity].
    + intros [Hc _]. split; [exact Hc | reflexivity].
  - cbv zeta. unfold check_data_exists.
    destruct stats as [|[|idx indices]]; try reflexivity.
    change (fold_left _ (idx :: indices) 0)
      with (Monitor.get_doc_count (Monitor.EsIndices (idx :: indices))).
    rewrite Z.gtb_ltb.
    destruct (0 <? Monitor.get_doc_count (Monitor.EsIndices (idx :: indices)));
      [|reflexivity].
    destruct search; reflexivity.
Qed.

Variable args : Args.
Variable index_pattern today : string.
Variable start_time : Z.








End CheckElasticFacts.

(** ** The S3 check script *)

Section ListingFacts.

Import Py CheckS3.

Lemma insert_latest_first_perm (x : s3_object) (l : list s3_object) :
  Permutation (insert_latest_first x l) (x :: l).
Proof.
  induction l as [|y ys IH]; simpl; [apply Permutation_refl|].
  destruct (LastModified x <? LastModified y); [|apply Permutation_refl].
  apply perm_trans with (y :: x :: ys);
    [apply perm_skip; exact IH | apply perm_swap].
Qed.

Lemma sorted_latest_first_perm (l : list s3_object) :
  Permutation (sorted_latest_first l) l.
Proof.
  induction l as [|x l IH]; simpl; [apply perm_nil|].
  apply perm_trans with (x :: sorted_latest_first l);
    [apply insert_latest_first_perm | apply perm_skip; exact IH].
Qed.

Lemma insert_latest_first_sorted (x : s3_object) (l : list s3_object) :
  latest_first l -> latest_first (insert_latest_first x l).
Proof.
  unfold latest_first.
  induction l as [|y ys IH]; intros Hs; simpl.
  - constructor; constructor.
  - inversion Hs as [|? ? Hys Hy]; subst.
    destruct (Z.ltb_spec (LastModified x) (LastModified y)) as [Hlt|Hge].
    + constructor; [apply IH; exact Hys|].
      apply (Permutation_Forall
               (Permutation_sym (insert_latest_first_perm x ys))).
      constructor; [lia | exact Hy].
    + constructor; [exact Hs|].
      constructor; [exact Hge|].
      apply (Forall_impl _ (P := fun b => LastModified b <= LastModified y));
        [intros b Hb; lia | exact Hy].
Qed.

Lemma sorted_latest_first_sorted (l : list s3_object) :
  latest_first (sorted_latest_first l).
Proof.
  induction l as [|x l IH]; simpl.
  - constructor.
  - apply insert_latest_first_sorted. exact IH.
Qed.

Lemma listed_app (p q : list page) : listed (p ++ q) = (listed p ++ listed q)%list.
Proof. unfold listed. apply flat_map_app. Qed.

Lemma firstn_covered {A : Type} (n : nat) (l more : list A) :
  (n <= List.length l)%nat -> firstn n (l ++ more) = firstn n l.
Proof.
  intros Hn. rewrite firstn_app.
  replace (n - List.length l)%nat with 0%nat by lia.
  simpl. apply app_nil_r.
Qed.

(** The loop over the pages when a positive [max_items] is given: the first
    [max_items] objects of the listing. *)
Lemma gather_positive (n : Z) (pages : list page) (acc : list s3_object) :
  0 < n ->
  forallb fetched pages = true ->
  (Z.of_nat (List.length acc) < n) ->
  gather (Some n) pages acc
  = Gathered (firstn (Z.to_nat n) (acc ++ listed pages)).
Proof.
  intros Hn. revert acc.
  induction pages as [|p pages IH]; intros acc Hall Hacc; simpl in *.
  - rewrite app_nil_r. rewrite firstn_all2 by lia. reflexivity.
  - destruct p as [contents| | |]; simpl in Hall; try discriminate.
    + destruct (Z.eqb_spec n 0) as [Hz|Hnz]; [lia|]. simpl.
      destruct (Z.geb_spec (Z.of_nat (List.length (acc ++ contents))) n)
        as [Hfull|Hshort].
      * unfold slice_to. destruct (Z.ltb_spec n 0); [lia|].
        rewrite app_assoc.
        rewrite (firstn_covered _ (acc ++ contents) (listed pages)) by lia.
        reflexivity.
      * rewrite IH by (try assumption; lia).
        rewrite app_assoc. reflexivity.
    + apply IH; assumption.
Qed.

(** The loop over the pages without a limit: the whole listing. *)
Lemma gather_unlimited (max_items : option Z) (pages : list page)
  (acc : list s3_object) :
  given max_items = false ->
  forallb fetched pages = true ->
  gather max_items pages acc = Gathered (acc ++ listed pages).
Proof.
  intros Hg. revert acc.
  induction pages as [|p pages IH]; intros acc Hall; simpl in *.
  - rewrite app_nil_r. reflexivity.
  - destruct p as [contents| | |]; simpl in Hall; try discriminate.
    + rewrite Hg. simpl. rewrite IH by assumption.
      rewrite app_assoc. reflexivity.
    + apply IH; assumption.
Qed.

(** Whatever the pages, what was gathered is the beginning of the listing. *)
Lemma gather_is_prefix (max_items : option Z) (pages : list page)
  (acc objects : list s3_object) :
  gather max_items pages acc = Gathered objects ->
  exists k, objects = firstn k (acc ++ listed pages).
Proof.
  revert acc.
  induction pages as [|p pages IH]; intros acc H; simpl in *.
  - inversion H; subst. exists (List.length objects).
    rewrite app_nil_r, firstn_all. reflexivity.
  - destruct p as [contents| | |]; try discriminate.
    + destruct (given max_items
                && (Z.of_nat (List.length (acc ++ contents))
                    >=? limit max_items)).
      * inversion H; subst. unfold slice_to.
        destruct (limit max_items <? 0).
        -- set (k := Z.to_nat _).
           exists (Nat.min k (List.length (acc ++ contents))).
           rewrite app_assoc, <- firstn_firstn.
           rewrite (firstn_covered (List.length (acc ++ contents)))
             by lia.
           rewrite (firstn_all (acc ++ contents)). reflexivity.
        -- set (k := Z.to_nat _).
           exists (Nat.min k (List.length (acc ++ contents))).
           rewrite app_assoc, <- firstn_firstn.
           rewrite (firstn_covered (List.length (acc ++ contents)))
             by lia.
           rewrite (firstn_all (acc ++ contents)). reflexivity.
      * apply IH in H. destruct H as [k Hk]. exists k.
        rewrite app_assoc. exact Hk.
    + apply IH. exact H.
Qed.

Lemma gather_length (n : Z) (pages : list page)
  (acc objects : list s3_object) :
  0 < n ->
  Z.of_nat (List.length acc) < n ->
  gather (Some n) pages acc = Gathered objects ->
  Z.of_nat (List.length objects) <= n.
Proof.
  intros Hn. revert acc.
  induction pages as [|p pages IH]; intros acc Hacc H; simpl in *.
  - inversion H; subst. lia.
  - destruct p as [contents| | |]; try discriminate.
    + destruct (Z.eqb_spec n 0) as [Hz|Hnz]; [lia|]. simpl in H.
      destruct (Z.geb_spec (Z.of_nat (List.length (acc ++ contents))) n)
        as [Hfull|Hshort].
      * inversion H; subst. unfold slice_to.
        destruct (Z.ltb_spec n 0); [lia|].
        rewrite length_firstn. lia.
      * apply (IH (acc ++ contents)%list); [lia | exact H].
    + apply (IH acc); assumption.
Qed.

Lemma listing_prefix_of_listed (max_items : option Z) (pages : list page)
  (objects : list s3_object) :
  list_s3_objects max_items pages = Normal objects ->
  exists k, Permutation objects (firstn k (listed pages)).
Proof.
  unfold list_s3_objects.
  destruct (gather max_items pages []) as [gathered_objects|code|] eqn:Hg;
    intros H; inversion H; subst.
  - destruct (gather_is_prefix _ _ _ _ Hg) as [k Hk]. exists k.
    simpl in Hk. rewrite <- Hk. apply sorted_latest_first_perm.
  - exists 0%nat. apply perm_nil.
Qed.

(** X12.  Whatever [list_s3_objects] returns is ordered latest first, is a
    rearrangement of some beginning of the listing, and has at most
    [max_items] objects when a positive [max_items] is given. *)
Theorem listing_is_sorted_prefix :
  forall (max_items : option Z) (pages : list page)
         (objects : list s3_object),
    list_s3_objects max_items pages = Normal objects ->
    latest_first objects
    /\ (exists k, Permutation objects (firstn k (listed pages)))
    /\ (forall n, max_items = Some n -> 0 < n ->
                  Z.of_nat (List.length objects) <= n).
Proof.
  intros max_items pages objects. unfold list_s3_objects.
  destruct (gather max_items pages []) as [gathered_objects|code|] eqn:Hg;
    intros H; inversion H; subst.
  - split; [apply sorted_latest_first_sorted|]. split.
    + destruct (gather_is_prefix _ _ _ _ Hg) as [k Hk]. exists k.
      simpl in Hk. rewrite <- Hk. apply sorted_latest_first_perm.
    + intros n -> Hn.
      rewrite (Permutation_length (sorted_latest_first_perm gathered_objects)).
      apply (gather_length n pages [] gathered_objects Hn); [simpl; lia|].
      exact Hg.
  - split; [constructor|]. split.
    + exists 0%nat. apply perm_nil.
    + intros n _ Hn. simpl. lia.
Qed.

(** X13.  When every page is fetched, [list_s3_objects] returns, latest
    first, the whole listing if no positive [max_items] is given, and else
    the first [max_items] objects in listing order: the cut is made before
    the sort, not after it. *)
Theorem listing_cuts_before_sorting :
  forall (max_items : option Z) (pages : list page),
    forallb fetched pages = true ->
    0 <= limit max_items ->
    list_s3_objects max_items pages
    = Normal (sorted_latest_first
                (if given max_items
                 then firstn (Z.to_nat (limit max_items)) (listed pages)
                 else listed pages)).
Proof.
  intros max_items pages Hall Hlim. unfold list_s3_objects.
  destruct (given max_items) eqn:Hg.
  - destruct max_items as [n|]; [|discriminate]. simpl in *.
    apply negb_true_iff in Hg. apply Z.eqb_neq in Hg.
    rewrite gather_positive by (try assumption; simpl; lia).
    reflexivity.
  - rewrite (gather_unlimited _ _ _ Hg Hall). reflexivity.
Qed.

(** X14.  With a positive [max_items], pages after the one that completes
    [max_items] objects are not looked at, whatever they hold; a
    [ClientError] on a page that is reached empties the result, and any other
    exception there leaves the function. *)
Theorem listing_stops_at_the_limit :
  forall (n : Z) (pages more : list page),
    0 < n ->
    forallb fetched pages = true ->
    n <= Z.of_nat (List.length (listed pages)) ->
    list_s3_objects (Some n) (pages ++ more) = list_s3_objects (Some n) pages
    /\ (forall max_items before code after,
           forallb fetched before = true ->
           (given max_items = false
            \/ (0 < limit max_items
                /\ Z.of_nat (List.length (listed before)) < limit max_items)) ->
           list_s3_objects max_items (before ++ ClientError code :: after)
           = Normal []
           /\ list_s3_objects max_items (before ++ OtherError :: after)
              = Raise TransportError).
Proof.
  intros n pages more Hn Hall Hlen. split.
  - assert (Hgen : forall acc,
               Z.of_nat (List.length acc) < n ->
               n <= Z.of_nat (List.length (acc ++ listed pages)) ->
               gather (Some n) (pages ++ more) acc
               = gather (Some n) pages acc).
    { clear Hlen. induction pages as [|p pages IH]; intros acc Hacc Hfull.
      - simpl in Hfull. rewrite app_nil_r in Hfull. lia.
      - destruct p as [contents| | |]; simpl in Hall; try discriminate;
          simpl.
        + destruct (Z.eqb_spec n 0) as [Hz|Hnz]; [lia|]. simpl.
          destruct (Z.geb_spec (Z.of_nat (List.length (acc ++ contents))) n)
            as [Hf|Hs]; [reflexivity|].
          apply IH; [exact Hall | lia |].
          simpl in Hfull. rewrite app_assoc in Hfull. exact Hfull.
        + apply IH; assumption. }
    unfold list_s3_objects. rewrite Hgen; [reflexivity | simpl; lia |].
    simpl. exact Hlen.
  - intros max_items before code after Hb Hcase.
    assert (Hgen : forall tail acc,
               (given max_items = false
                \/ (0 < limit max_items
                    /\ Z.of_nat (List.length (acc ++ listed before))
                       < limit max_items)) ->
               gather max_items (before ++ tail) acc
               = gather max_items tail (acc ++ listed before)).
    { intros tail. clear Hcase.
      induction before as [|p before IH]; intros acc Hcase.
      - simpl. rewrite app_nil_r. reflexivity.
      - destruct p as [contents| | |]; simpl in Hb; try discriminate;
          simpl.
        + assert (Hgo : given max_items
                        && (Z.of_nat (List.length (acc ++ contents))
                            >=? limit max_items) = false).
          { destruct Hcase as [Hg|[Hpos Hshort]]; [rewrite Hg; reflexivity|].
            apply andb_false_iff. right.
            destruct (Z.geb_spec (Z.of_nat (List.length (acc ++ contents)))
                        (limit max_items)) as [Hf|Hs]; [|reflexivity].
            simpl in Hshort. rewrite !length_app in *. lia. }
          rewrite Hgo, (IH Hb).
          * rewrite <- app_assoc. reflexivity.
          * simpl in Hcase. rewrite <- app_assoc. exact Hcase.
        + apply (IH Hb). exact Hcase. }
    unfold list_s3_objects.
    rewrite !Hgen by exact Hcase. split; reflexivity.
Qed.

End ListingFacts.

Section TimeAgoFacts.

Import CheckS3.

Lemma phrase_days (n : Z) :
  (str n ++ " day" ++ (if negb (n =? 1)%Z then "s" else "") ++ " ago")%string
  = phrase n Days.
Proof. unfold phrase. destruct (n =? 1); reflexivity. Qed.

Lemma phrase_hours (n : Z) :
  (str n ++ " hour" ++ (if negb (n =? 1)%Z then "s" else "") ++ " ago")%string
  = phrase n Hours.
Proof. unfold phrase. destruct (n =? 1); reflexivity. Qed.

Lemma phrase_minutes (n : Z) :
  (str n ++ " minute" ++ (if negb (n =? 1)%Z then "s" else "") ++ " ago")%string
  = phrase n Minutes.
Proof. unfold phrase. destruct (n =? 1); reflexivity. Qed.

Lemma phrase_seconds (n : Z) :
  (str n ++ " second" ++ (if negb (n =? 1)%Z then "s" else "") ++ " ago")%string
  = phrase n Seconds.
Proof. unfold phrase. destruct (n =? 1); reflexivity. Qed.

(** X15.  For a time that is not in the future, [format_time_ago] names
    the whole number of the largest unit (day, hour, minute, second) that
    fits once into the time passed, or 0 seconds, with the plural "s"
    unless that number is 1.  For a time in the future the days are
    dropped: the text is that of the time passed modulo one day. *)
Theorem format_time_ago_floors :
  (forall now timestamp : Z,
      timestamp <= now ->
      exists n u,
        format_time_ago now timestamp = phrase n u
        /\ n * micros u <= now - timestamp < (n + 1) * micros u
        /\ (u = Seconds \/ 1 <= n)
        /\ (forall u', micros u < micros u' -> now - timestamp < micros u'))
  /\ (forall now timestamp : Z,
         now < timestamp ->
         format_time_ago now timestamp
         = format_time_ago ((now - timestamp) mod 86400000000) 0).
Proof.
  split.
  - intros now timestamp Hle.
    unfold format_time_ago, delta_days, delta_seconds.
    set (d := now - timestamp).
    assert (Hd : 0 <= d) by (unfold d; lia).
    destruct (Z.gtb_spec (d / 86400000000) 0) as [Hdays|Hdays].
    + exists (d / 86400000000), Days. rewrite phrase_days. simpl micros.
      split; [reflexivity|]. split; [|split].
      * pose proof (Z.div_mod d 86400000000).
        pose proof (Z.mod_pos_bound d 86400000000). lia.
      * right. lia.
      * intros u'. destruct u'; simpl; lia.
    + assert (Hday : d < 86400000000).
      { pose proof (Z.div_mod d 86400000000).
        pose proof (Z.mod_pos_bound d 86400000000).
        assert (0 <= d / 86400000000) by (apply Z.div_pos; lia).
        lia. }
      rewrite (Z.mod_small d 86400000000) by lia.
      set (s := d / 1000000).
      assert (Hs : s * 1000000 <= d < (s + 1) * 1000000).
      { unfold s. pose proof (Z.div_mod d 1000000).
        pose proof (Z.mod_pos_bound d 1000000). lia. }
      assert (Hs0 : 0 <= s) by (unfold s; apply Z.div_pos; lia).
      destruct (Z.gtb_spec (s / 3600) 0) as [Hh|Hh].
      * exists (s / 3600), Hours. rewrite phrase_hours. simpl micros.
        split; [reflexivity|]. split; [|split].
        -- pose proof (Z.div_mod s 3600).
           pose proof (Z.mod_pos_bound s 3600). lia.
        -- right. lia.
        -- intros u'. destruct u'; simpl; lia.
      * assert (Hhour : s < 3600).
        { pose proof (Z.div_mod s 3600).
          pose proof (Z.mod_pos_bound s 3600).
          assert (0 <= s / 3600) by (apply Z.div_pos; lia).
          lia. }
        rewrite (Z.mod_small s 3600) by lia.
        destruct (Z.gtb_spec (s / 60) 0) as [Hm|Hm].
        -- exists (s / 60), Minutes. rewrite phrase_minutes. simpl micros.
           split; [reflexivity|]. split; [|split].
           ++ pose proof (Z.div_mod s 60).
              pose proof (Z.mod_pos_bound s 60). lia.
           ++ right. lia.
           ++ intros u'. destruct u'; simpl; lia.
        -- assert (Hmin : s < 60).
           { pose proof (Z.div_mod s 60).
             pose proof (Z.mod_pos_bound s 60).
             assert (0 <= s / 60) by (apply Z.div_pos; lia).
             lia. }
           rewrite (Z.mod_small s 60) by lia.
           exists s, Seconds. rewrite phrase_seconds. simpl micros.
           split; [reflexivity|]. split; [lia|]. split; [left; reflexivity|].
           intros u'. destruct u'; simpl; lia.
  - intros now timestamp Hlt.
    unfold format_time_ago, delta_days, delta_seconds.
    set (d := now - timestamp).
    assert (Hd : d < 0) by (unfold d; lia).
    pose proof (Z.mod_pos_bound d 86400000000) as Hm.
    replace (d mod 86400000000 - 0) with (d mod 86400000000) by lia.
    rewrite (Z.mod_small (d mod 86400000000) 86400000000) by lia.
    rewrite (Z.div_small (d mod 86400000000) 86400000000) by lia.
    assert (Hneg : d / 86400000000 < 0)
      by (apply Z.div_lt_upper_bound; lia).
    destruct (Z.gtb_spec (d / 86400000000) 0); [lia|].
    reflexivity.
Qed.

End TimeAgoFacts.

Section S3CheckFacts.

Import Py CheckS3.

Lemma mem_In (s : string) (l : list string) :
  Str.mem s l = true <-> In s l.
Proof.
  induction l as [|x l IH]; simpl.
  - split; [discriminate | tauto].
  - destruct (String.eqb_spec s x) as [Heq|Hne].
    + split; [intros _; left; symmetry; exact Heq | reflexivity].
    + rewrite IH. split; [tauto|]. intros [H|H]; [congruence | exact H].
Qed.

Lemma inspect_all_entries (inspect : string -> content)
  (objects : list s3_object) (detailed : list (string * option Z)) :
  inspect_all inspect objects = Normal detailed ->
  (List.length detailed <= List.length objects)%nat
  /\ forall key record_count,
      In (key, record_count) detailed ->
      In key (map Key objects) /\ inspect key = Info record_count.
Proof.
  revert detailed.
  induction objects as [|obj rest IH]; intros detailed H; simpl in *.
  - inversion H; subst. split; [simpl; lia | intros ? ? []].
  - destruct (inspect (Key obj)) as [rc| |] eqn:Hi; [| |discriminate].
    + destruct (inspect_all inspect rest) as [d| e |] eqn:Hrest;
        try discriminate.
      inversion H; subst.
      destruct (IH d eq_refl) as [Hlen Hin].
      split; [simpl; lia|].
      intros key record_count [Heq|Hmore].
      * inversion Heq; subst. split; [left; reflexivity | exact Hi].
      * destruct (Hin _ _ Hmore) as [H1 H2]. split; [right; exact H1 | exact H2].
    + destruct (IH detailed H) as [Hlen Hin].
      split; [lia|].
      intros key record_count Hmore.
      destruct (Hin _ _ Hmore) as [H1 H2]. split; [right; exact H1 | exact H2].
Qed.

Lemma inspect_all_unavailable (inspect : string -> content)
  (objects : list s3_object) :
  (forall key, inspect key = Unavailable) ->
  inspect_all inspect objects = Normal [].
Proof.
  intros Hall. induction objects as [|obj rest IH]; simpl; [reflexivity|].
  rewrite Hall. exact IH.
Qed.

Lemma in_firstn {A : Type} (k : nat) (l : list A) (x : A) :
  In x (firstn k l) -> In x l.
Proof.
  intros H. rewrite <- (firstn_skipn k l). apply in_or_app. left. exact H.
Qed.

Lemma slice_to_incl {A : Type} (n : Z) (l : list A) (x : A) :
  In x (slice_to n l) -> In x l.
Proof.
  unfold slice_to. destruct (n <? 0); apply in_firstn.
Qed.

(** X16.  When [check_s3_data] returns, its flag says whether the listing
    held any object, not whether any could be read: with a listing that is
    not empty and objects that all fail with [ClientError] it returns
    [True] with no details.  Every detail it returns belongs to a listed key
    whose content could be read. *)
Theorem check_s3_data_reports_listing :
  forall (max_count : Z) (pages : list page) (inspect : string -> content),
    (forall has_data detailed,
        check_s3_data true max_count pages inspect
        = Normal (has_data, detailed) ->
        (has_data = true
         <-> exists obj objects,
             list_s3_objects (Some max_count) pages = Normal (obj :: objects))
        /\ (has_data = false -> detailed = [])
        /\ (forall key record_count,
               In (key, record_count) detailed ->
               In key (map Key (listed pages))
               /\ inspect key = Info record_count))
    /\ (forall obj objects,
           list_s3_objects (Some max_count) pages = Normal (obj :: objects) ->
           (forall key, inspect key = Unavailable) ->
           check_s3_data true max_count pages inspect = Normal (true, [])).
Proof.
  intros max_count pages inspect. split.
  - intros has_data detailed. unfold check_s3_data.
    destruct (list_s3_objects (Some max_count) pages) as [objs| e |] eqn:Hl;
      try discriminate.
    destruct objs as [|obj objects].
    + intros H. inversion H; subst.
      split; [|split].
      * split; [discriminate | intros (o & os & Hx); discriminate Hx].
      * reflexivity.
      * intros ? ? [].
    + destruct (inspect_all inspect (slice_to max_count (obj :: objects)))
        as [d| e |] eqn:Hi; try discriminate.
      intros H. inversion H; subst.
      split; [|split].
      * split; [intros _; exists obj, objects; reflexivity | reflexivity].
      * discriminate.
      * intros key record_count Hin.
        destruct (inspect_all_entries _ _ _ Hi) as [_ Hent].
        destruct (Hent _ _ Hin) as [Hkey Hinfo]. split; [|exact Hinfo].
        apply in_map_iff in Hkey. destruct Hkey as (o & <- & Ho).
        apply slice_to_incl in Ho.
        destruct (listing_prefix_of_listed _ _ _ Hl) as [k Hk].
        apply in_map.
        apply (in_firstn k).
        apply (Permutation_in _ Hk). exact Ho.
  - intros obj objects Hl Hall. unfold check_s3_data. rewrite Hl.
    rewrite inspect_all_unavailable by exact Hall. reflexivity.
Qed.

End S3CheckFacts.

Section S3WaitFacts.

Import Py CheckS3.

Variable args : Args.
Variable inspect : string -> content.
Variable start_time : Z.
Variable initial_objects : list s3_object.

Lemma new_keys_none (current : list s3_object) :
  incl (map Key current) (map Key initial_objects) ->
  new_keys initial_objects current = [].
Proof.
  intros Hincl. unfold new_keys.
  induction (map Key current) as [|k ks IH]; simpl; [reflexivity|].
  assert (Hk : Str.mem k (map Key initial_objects) = true).
  { apply mem_In. apply Hincl. left. reflexivity. }
  rewrite Hk. simpl. apply IH.
  intros x Hx. apply Hincl. right. exact Hx.
Qed.

(** X17.  The waiting loop of the S3 script sleeps for more than zero and
    at most ten seconds at a time, returns 0 or 1 when it returns, and
    returns 0 only from a round whose listing shows a key that the first
    listing did not have and whose fresh listing is not empty: objects that
    were there from the start never make it return 0. *)
Theorem s3_wait_needs_new_key :
  forall rounds : list round,
    Forall (fun secs => 0 < secs <= 10)
      (fst (wait_loop args inspect start_time initial_objects rounds))
    /\ (forall code,
           snd (wait_loop args inspect start_time initial_objects rounds)
           = Normal code -> code = 0 \/ code = 1)
    /\ (snd (wait_loop args inspect start_time initial_objects rounds)
        = Normal 0 ->
        exists before r after detailed,
          rounds = before ++ r :: after
          /\ shows_new_key initial_objects r = true
          /\ check_s3_data (client_made r) (count args) (relisting r) inspect
             = Normal (true, detailed))
    /\ ((forall r current,
            In r rounds ->
            list_s3_objects None (listing r) = Normal current ->
            incl (map Key current) (map Key initial_objects)) ->
        snd (wait_loop args inspect start_time initial_objects rounds)
        <> Normal 0).
Proof.
  induction rounds as [|r rest (IHp & IHc & IHz & IHn)]; simpl.
  - split; [constructor|]. split; [discriminate|].
    split; [discriminate|]. intros _. discriminate.
  - destruct (at_test r - start_time <? wait args).
    2:{ simpl. split; [constructor|].
        split; [intros code H; inversion H; right; reflexivity|].
        split; [discriminate|]. intros _. discriminate. }
    destruct (list_s3_objects None (listing r)) as [current| e |] eqn:Hl.
    2:{ simpl. split; [constructor|]. split; [discriminate|].
        split; [discriminate|]. intros _. discriminate. }
    2:{ simpl. split; [constructor|]. split; [discriminate|].
        split; [discriminate|]. intros _. discriminate. }
    destruct (new_keys initial_objects current) as [|k ks] eqn:Hnew.
    + destruct (Z.leb_spec (wait args - (at_remaining r - start_time)) 0)
        as [Hle|Hgt].
      { simpl. split; [constructor|].
        split; [intros code H; inversion H; right; reflexivity|].
        split; [discriminate|]. intros _. discriminate. }
      destruct (Z.ltb_spec
                  (Z.min 10 (wait args - (at_remaining r - start_time))) 0)
        as [Hneg|Hpos]; [lia|].
      simpl. split; [constructor; [lia | exact IHp]|].
      split; [exact IHc|]. split.
      * intros H. destruct (IHz H) as (before & r' & after & d & -> & Hs & Hc).
        exists (r :: before), r', after, d. repeat split; assumption.
      * intros Hall. apply IHn.
        intros r' cur Hin. apply Hall. right. exact Hin.
    + destruct (check_s3_data (client_made r) (count args) (relisting r)
                  inspect) as [[has_data detailed]| e |] eqn:Hc; simpl.
      * split; [constructor|].
        split; [intros code H; inversion H; destruct has_data; tauto|].
        split.
        -- intros H. destruct has_data; [|discriminate].
           exists [], r, rest, detailed. simpl.
           unfold shows_new_key. rewrite Hl, Hnew.
           repeat split. exact Hc.
        -- intros Hall. exfalso.
           assert (Hnone : new_keys initial_objects current = []).
           { apply new_keys_none. apply (Hall r current);
               [left; reflexivity | exact Hl]. }
           congruence.
      * split; [constructor|]. split; [discriminate|].
        split; [discriminate|]. intros _. discriminate.
      * split; [constructor|]. split; [discriminate|].
        split; [discriminate|]. intros _. discriminate.
Qed.

End S3WaitFacts.

(** ** The monitor and the check script it launches *)

Section PatternFacts.

Import Py.

Lemma check_requests (index_pattern : option string) (today : string)
  (stats : Monitor.es_reply) (search : CheckElastic.search_reply)
  (q : CheckElastic.request) :
  In q (fst (CheckElastic.check_data_exists index_pattern today stats search)) ->
  let pattern := match index_pattern with
                 | None => CheckElastic.get_today_index today
                 | Some p => p
                 end in
  q = CheckElastic.Stats pattern \/ q = CheckElastic.Search pattern.
Proof.
  cbv zeta. unfold CheckElastic.check_data_exists.
  destruct stats as [|[|idx indices]]; simpl.
  - intros [H|[]]. left. symmetry. exact H.
  - intros [H|[]]. left. symmetry. exact H.
  - destruct (_ >? 0).
    + destruct search; simpl; intros [H|[H|[]]];
        [left | right | left | right]; symmetry; exact H.
    + simpl. intros [H|[]]. left. symmetry. exact H.
Qed.

Lemma wait_loop_requests (args : CheckElastic.Args)
  (pattern today : string) (start_time : Z)
  (rounds : list CheckElastic.round) (q : CheckElastic.request) :
  In q (fst (CheckElastic.wait_loop args pattern today start_time rounds)) ->
  q = CheckElastic.Stats pattern \/ q = CheckElastic.Search pattern
  \/ exists secs, q = CheckElastic.Pause secs.
Proof.
  induction rounds as [|r rest IH]; simpl; [intros []|].
  destruct (CheckElastic.at_test r - start_time <? CheckElastic.wait args);
    [|intros []].
  assert (Hc : forall q',
             In q' (fst (CheckElastic.check_data_exists (Some pattern) today
                           (CheckElastic.stats r) (CheckElastic.search r))) ->
             q' = CheckElastic.Stats pattern
             \/ q' = CheckElastic.Search pattern
             \/ exists secs, q' = CheckElastic.Pause secs).
  { intros q' Hq. apply check_requests in Hq. simpl in Hq. tauto. }
  destruct (snd (CheckElastic.check_data_exists _ today _ _)); [apply Hc|].
  destruct (_ <=? 0); [apply Hc|].
  destruct (_ <? 0); [apply Hc|].
  simpl. rewrite in_app_iff. intros [H|[H|H]].
  - apply Hc. exact H.
  - right. right. eexists. symmetry. exact H.
  - apply IH. exact H.
Qed.

(** X18.  Without [--index] the monitor watches ["filebeat-*"], the
    command line that [run_check_elastic_script] builds passes no pattern,
    and the check script, left without a pattern, asks only for the
    pattern of the day, ["filebeat-7.*-" + today], which is another one. *)
Theorem check_script_asks_another_pattern :
  forall (margs : Args) (cargs : CheckElastic.Args)
         (connection : Driver.es_connection) (today : string)
         (start_time : Z) (rounds : list CheckElastic.round),
    index margs = None ->
    CheckElastic.index cargs = None ->
    Monitor.index_pattern margs today = "filebeat-*"%string
    /\ Remote.check_cmd margs
       = (let base :=
            ("python3 /opt/check_elastic_data.py --cloud-id " ++ cloud_id margs
             ++ " --api-key " ++ api_key margs)%string in
          if verbose margs then (base ++ " --verbose")%string else base)
    /\ (forall q,
           In q (fst (CheckElastic.main cargs connection today start_time
                        rounds)) ->
           q = CheckElastic.Connect
           \/ q = CheckElastic.Stats (CheckElastic.get_today_index today)
           \/ q = CheckElastic.Search (CheckElastic.get_today_index today)
           \/ exists secs, q = CheckElastic.Pause secs)
    /\ CheckElastic.get_today_index today
       <> Monitor.index_pattern margs today.
Proof.
  intros margs cargs connection today start_time rounds Hm Hc.
  assert (Hp : Monitor.index_pattern margs today = "filebeat-*"%string).
  { unfold Monitor.index_pattern. rewrite Hm. reflexivity. }
  split; [exact Hp|]. split; [|split].
  - unfold Remote.check_cmd. rewrite Hm. reflexivity.
  - intros q. unfold CheckElastic.main. rewrite Hc.
    destruct connection; simpl;
      try (intros [H|[]]; left; symmetry; exact H).
    destruct (CheckElastic.wait cargs >? 0); simpl.
    + intros [H|H]; [left; symmetry; exact H|].
      right. apply wait_loop_requests in H. exact H.
    + destruct rounds as [|r rest]; simpl.
      * intros [H|[]]. left. symmetry. exact H.
      * intros [H|H]; [left; symmetry; exact H|].
        right. apply check_requests in H. simpl in H. tauto.
  - rewrite Hp. unfold CheckElastic.get_today_index. simpl.
    intros H. inversion H.
Qed.

End PatternFacts.

(** ** The further properties on concrete runs *)

Section MoreRuns.

Import Py Shape Terms Scenario Samples.

Lemma doc_count_sums_indices_witness :
  Monitor.get_doc_count
    (Monitor.EsIndices [("a"%string, 3%N); ("b"%string, 4%N)])
  = Monitor.get_doc_count
      (Monitor.EsIndices [("b"%string, 4%N); ("a"%string, 3%N)]).
Proof.
  apply (proj1 (proj2 doc_count_sums_indices)).
  apply perm_swap.
Defined.

Lemma stable_stop_repeats_previous_sample_witness :
  (exists before' now' r',
      Monitor.samples every_ten growth 4
      = before' ++ [Monitor.Sample now' r']
      /\ Monitor.get_doc_count r' = Monitor.get_doc_count (docs 250))
  /\ Monitor.stable_count
       (Monitor.track (Monitor.start 0 0) (Monitor.samples every_ten growth 4))
     = Monitor.get_doc_count (docs 250)
  /\ stable_time args0
     <= 50 - Monitor.stable_since
              (Monitor.track (Monitor.start 0 0)
                 (Monitor.samples every_ten growth 4)).
Proof.
  apply (stable_stop_repeats_previous_sample args0 (docs 0) 0
           (Monitor.samples every_ten growth 4) 50 (docs 250) 250).
  - simpl. lia.
  - reflexivity.
  - reflexivity.
Defined.

Lemma no_dwell_stops_at_first_growth_witness :
  Monitor.monitor_elasticsearch impatient (docs 0) 0
    ([] ++ Monitor.Sample 10 (docs 100) :: [Monitor.Sample 20 (docs 250)])
  = Monitor.Returned Monitor.Stable
      (Monitor.get_doc_count (docs 100) - Monitor.get_doc_count (docs 0)).
Proof.
  apply (no_dwell_stops_at_first_growth impatient (docs 0) 0 [] 10 (docs 100)
           [Monitor.Sample 20 (docs 250)] (Monitor.start 0 0)).
  - simpl. lia.
  - reflexivity.
  - vm_compute. reflexivity.
  - vm_compute. reflexivity.
Defined.

Lemma max_count_is_running_maximum_witness :
  Monitor.max_count
    (Monitor.track (Monitor.start 0 0) (Monitor.samples every_ten growth 5))
  = fold_left Z.max (sampled_counts (Monitor.samples every_ten growth 5)) 0
  /\ 0 <= Monitor.max_count
            (Monitor.track (Monitor.start 0 0)
               (Monitor.samples every_ten growth 5))
  /\ Forall (fun c =>
               c <= Monitor.max_count
                      (Monitor.track (Monitor.start 0 0)
                         (Monitor.samples every_ten growth 5)))
       (sampled_counts (Monitor.samples every_ten growth 5)).
Proof.
  apply (max_count_is_running_maximum 0 0
           (Monitor.samples every_ten growth 5)).
  reflexivity.
Defined.

Lemma interrupt_reports_last_sample_witness :
  Monitor.monitor_elasticsearch args0 (docs 0) 0
    ([] ++ Monitor.Sample 10 (docs 100)
        :: Monitor.InterruptBeforeSample :: [])
  = Monitor.Returned Monitor.Interrupted
      (Monitor.get_doc_count (docs 100) - Monitor.get_doc_count (docs 0)).
Proof.
  apply (interrupt_reports_last_sample args0 (docs 0) 0 [] 10 (docs 100) []
           (snd (Monitor.observe (Monitor.start 0 0) 10 100))).
  reflexivity.
Defined.

(** Four rounds without data and a waiting time of 25 seconds: three
    sleeps, of 10, 10 and 2 seconds, then exit code 1. *)
Example empty_rounds_run :
  CheckElastic.wait_loop waiting "filebeat-*" "2026.01.15" 0 empty_rounds
  = ([CheckElastic.Stats "filebeat-*"; CheckElastic.Pause 10;
      CheckElastic.Stats "filebeat-*"; CheckElastic.Pause 10;
      CheckElastic.Stats "filebeat-*"; CheckElastic.Pause 2],
     Raise (SystemExit 1)).
Proof. reflexivity. Qed.


Lemma listing_is_sorted_prefix_witness :
  CheckS3.latest_first [newer; older]
  /\ (exists k,
         Permutation [newer; older] (firstn k (CheckS3.listed two_pages)))
  /\ (forall n, Some 2 = Some n -> 0 < n ->
                Z.of_nat (List.length [newer; older]) <= n).
Proof.
  apply (listing_is_sorted_prefix (Some 2) two_pages [newer; older]).
  reflexivity.
Defined.

(** With [max_items = 2] the latest object, on the second page, is not
    among the two returned. *)
Lemma listing_cuts_before_sorting_witness :
  CheckS3.list_s3_objects (Some 2) two_pages
  = Normal (CheckS3.sorted_latest_first
              (if CheckS3.given (Some 2)
               then firstn (Z.to_nat (CheckS3.limit (Some 2)))
                      (CheckS3.listed two_pages)
               else CheckS3.listed two_pages)).
Proof.
  apply (listing_cuts_before_sorting (Some 2) two_pages).
  - reflexivity.
  - simpl. lia.
Defined.

Example listing_misses_the_latest :
  CheckS3.list_s3_objects (Some 2) two_pages = Normal [newer; older]
  /\ CheckS3.list_s3_objects None two_pages = Normal [newest; newer; older].
Proof. split; reflexivity. Qed.

Lemma listing_stops_at_the_limit_witness :
  CheckS3.list_s3_objects (Some 2)
    (two_pages ++ [CheckS3.ClientError "NoSuchBucket"])
  = CheckS3.list_s3_objects (Some 2) two_pages.
Proof.
  apply (listing_stops_at_the_limit 2 two_pages
           [CheckS3.ClientError "NoSuchBucket"]).
  - lia.
  - reflexivity.
  - vm_compute. discriminate.
Defined.

(** Ninety seconds ago, and an hour ahead. *)
Example time_ago_examples :
  CheckS3.format_time_ago 90000000 0 = "1 minute ago"%string
  /\ CheckS3.format_time_ago 0 0 = "0 seconds ago"%string
  /\ CheckS3.format_time_ago (3 * 86400000000) 0 = "3 days ago"%string
  /\ CheckS3.format_time_ago 0 3600000000 = "23 hours ago"%string.
Proof. repeat split. Qed.

Lemma check_script_asks_another_pattern_witness :
  Monitor.index_pattern args0 "2026.01.15" = "filebeat-*"%string.
Proof.
  apply (check_script_asks_another_pattern args0 waiting Driver.Connected
           "2026.01.15" 0 empty_rounds); reflexivity.
Defined.

End MoreRuns.

(** ** Failed queries and refused sleeps *)

Section FailedQueryFacts.

Import Monitor Shape Terms.

Variable args : Args.






Variable clock : nat -> Z.
Variable reply : nat -> es_reply.



End FailedQueryFacts.

Section FailedQueryClaim.

Import Monitor Shape Terms.


End FailedQueryClaim.

Section RevisedRuns.

Import Py Shape Terms Scenario Samples.
Import Monitor.




End RevisedRuns.

(** ** The whole of [main] *)

Section EntryFacts.

Import Py Shape Terms Scenario.

(** X7.  [main] leaves by [sys.exit] with code 0, 1 or 2 only: with code 2
    only when [argparse] rejects the command line, and with code 0 only for
    [--help] or after the arguments were parsed, the SSH connection made,
    the setup steps gone through and a positive number of new documents
    returned by the monitor. *)
Theorem exit_zero_means_new_documents :
  forall (c : Entry.command_line) (w : Driver.World) (code : Z),
    Driver.exit_code (Entry.main c w) = Some code ->
    (code = 0 \/ code = 1 \/ code = 2)
    /\ (code = 2 -> c = Entry.Rejected)
    /\ (code = 0 ->
        c = Entry.HelpAsked
        \/ exists args,
            c = Entry.Parsed args
            /\ Driver.ssh_connects w = true
            /\ snd (Driver.setup args w) = Normal tt
            /\ exists first why n,
                Driver.first_query w = Some first
                /\ Monitor.monitor_elasticsearch args first
                     (Driver.started w) (Driver.events w)
                   = Monitor.Returned why n
                /\ 0 < n).
Proof.
  intros c w code. unfold Entry.main.
  destruct c as [args| |].
  - assert (Hmain : bind (Entry.parse_args (Entry.Parsed args))
                      (fun a => Driver.main a w)
                    = Driver.main args w).
    { unfold bind. simpl. destruct (Driver.main args w). reflexivity. }
    rewrite Hmain. intros H.
    destruct (parsed_exit_codes args w code H) as [Hcodes Hzero].
    split; [tauto|]. split; [intros ->; lia|].
    intros Hc. right. exists args. split; [reflexivity|].
    apply Hzero. exact Hc.
  - unfold Driver.exit_code. simpl. intros H. inversion H.
    split; [tauto|]. split; [reflexivity | discriminate].
  - unfold Driver.exit_code. simpl. intros H. inversion H.
    split; [tauto|]. split; [discriminate|].
    intros _. left. reflexivity.
Qed.

Lemma exit_zero_means_new_documents_witness :
  (0 = 0 \/ 0 = 1 \/ 0 = 2)
  /\ (0 = 2 -> Entry.Parsed args0 = Entry.Rejected)
  /\ (0 = 0 ->
      Entry.Parsed args0 = Entry.HelpAsked
      \/ exists args,
          Entry.Parsed args0 = Entry.Parsed args
          /\ Driver.ssh_connects
               (world true 0 args0 (Monitor.samples every_ten growth 5))
             = true
          /\ snd (Driver.setup args
                    (world true 0 args0 (Monitor.samples every_ten growth 5)))
             = Normal tt
          /\ exists first why n,
              Driver.first_query
                (world true 0 args0 (Monitor.samples every_ten growth 5))
              = Some first
              /\ Monitor.monitor_elasticsearch args first
                   (Driver.started
                      (world true 0 args0
                         (Monitor.samples every_ten growth 5)))
                   (Driver.events
                      (world true 0 args0
                         (Monitor.samples every_ten growth 5)))
                 = Monitor.Returned why n
              /\ 0 < n).
Proof.
  apply (exit_zero_means_new_documents (Entry.Parsed args0)
           (world true 0 args0 (Monitor.samples every_ten growth 5)) 0).
  reflexivity.
Defined.

(** [--help] and a rejected command line end [main] before any
    connection. *)
Example argparse_exits :
  Entry.main Entry.HelpAsked
    (world true 0 args0 (Monitor.samples every_ten growth 5))
  = ([], Raise (SystemExit 0))
  /\ Entry.main Entry.Rejected
       (world true 0 args0 (Monitor.samples every_ten growth 5))
     = ([], Raise (SystemExit 2)).
Proof. split; reflexivity. Qed.

End EntryFacts.
